(** * awc.go: the METAR query builder and the fetch call

    A shallow embedding of package [awc] (files [math.go], [metar.go] and
    the endpoint helpers) together with the properties of the query
    builder, of the URL rendering and of [GetMETAR].

    Conventions of the embedding.
    - A Go [float32] is a [spec_float] of the Standard Library, read at
      precision 24 and maximal exponent 128.  Comparisons are the IEEE
      ones ([SFcompare]): every comparison with a NaN is false.
    - A Go [string] is a [string] (a sequence of bytes).
    - [int64] and [int] values are integers of [Z].
    - A pointer field of [METARQuery] that is either [nil] or the address
      of a fresh copy of a parameter is an [option].
    - A method with a pointer receiver that mutates the receiver and
      returns it is a function from the old to the new record. *)

From Stdlib Require Import ZArith List String Ascii Bool Lia.
From Stdlib Require Import Floats.SpecFloat.
From Stdlib Require Import DecimalString.
Import ListNotations.

Local Open Scope string_scope.
Local Open Scope Z_scope.

(** ** 32-bit floating point numbers *)

Module Float32.

Definition prec : Z := 24.
Definition emax : Z := 128.

Definition float32 : Type := spec_float.

(** The values of type [float32] among the [spec_float]s. *)
Definition wf (x : float32) : Prop := valid_binary prec emax x = true.

(** An integer constant converted to [float32]. *)
Definition of_Z (z : Z) : float32 := binary_normalize prec emax z 0 false.

Definition is_nan (x : float32) : bool :=
  match x with S754_nan => true | _ => false end.

(** Go's [x <= y], [x >= y] and [x == y] on floats. *)
Definition le (x y : float32) : bool := SFleb x y.

Definition ge (x y : float32) : bool :=
  match SFcompare x y with
  | Some (Gt | Eq) => true
  | _ => false
  end.

Definition eq (x y : float32) : bool := SFeqb x y.

(** [float32(math.Abs(float64(x)))]: the widening conversion is exact,
    [math.Abs] clears the sign bit and the narrowing of the result is
    exact again. *)
Definition abs (x : float32) : float32 := SFabs x.

(** The closed interval [[lo, hi]] in Go's own comparisons. *)
Definition within (lo hi x : float32) : Prop :=
  le lo x = true /\ le x hi = true.

End Float32.

Import Float32(float32, of_Z, is_nan, within, wf).

(** ** The verbs of [fmt.Sprintf] used by the package *)

Module Fmt.

(** [%d] on an integer. *)
Definition d (n : Z) : string := NilZero.string_of_int (Z.to_int n).

(** [%t] on a boolean. *)
Definition t (b : bool) : string := if b then "true" else "false".

(** The digits of [n] in base ten, left-padded with zeros to [width]. *)
Fixpoint digits (width : nat) (n : Z) (acc : string) : string :=
  match width with
  | O => acc
  | S w =>
      digits w (n / 10)
        (String (ascii_of_nat (48 + Z.to_nat (n mod 10))) acc)
  end.

(** The integer nearest to [num / den], ties to the even one
    ([den > 0], [num >= 0]). *)
Definition round_half_even (num den : Z) : Z :=
  let q := num / den in
  let r := num mod den in
  match 2 * r ?= den with
  | Lt => q
  | Gt => q + 1
  | Eq => if Z.even q then q else q + 1
  end.

(** [|x| * 10^6] rounded to an integer, for a finite non-zero [x]
    of mantissa [m] and exponent [e]. *)
Definition micro (m : positive) (e : Z) : Z :=
  if 0 <=? e
  then Z.pos m * 2 ^ e * 1000000
  else round_half_even (Z.pos m * 1000000) (2 ^ (- e)).

Definition sign (s : bool) : string := if s then "-" else "".

Definition fixed6 (n : Z) : string :=
  d (n / 1000000) ++ "." ++ digits 6 (n mod 1000000) "".

(** [%f] on a [float32]: six digits after the point, the exact decimal
    expansion rounded to nearest, ties to even; the sign of a negative
    zero is kept; the non-finite values print as [NaN], [+Inf], [-Inf]. *)
Definition f (x : float32) : string :=
  match x with
  | S754_nan => "NaN"
  | S754_infinity false => "+Inf"
  | S754_infinity true => "-Inf"
  | S754_zero s => sign s ++ "0.000000"
  | S754_finite s m e => sign s ++ fixed6 (micro m e)
  end.

End Fmt.

(** ** [strings.Join] and [time.Time] *)

Module strings.
Definition Join (elems : list string) (sep : string) : string :=
  String.concat sep elems.
End strings.

Module time.
(** The package observes a [time.Time] through [Unix()] only: the
    seconds elapsed since the epoch, an [int64]. *)
Record Time : Type := { Unix : Z }.
End time.

(** ** [math.go] *)

Definition keepFloatInRange (value min max : float32) : float32 :=
  if Float32.le value min then min
  else if Float32.ge value max then max
  else value.

(** ** The endpoint helpers *)

Definition endpoint : Type := string.

Definition endpointMETAR : endpoint :=
  "https://aviationweather.gov/adds/dataserver_current/httpparam?dataSource=metars&requestType=retrieve&format=xml".

(** [fmt.Sprintf("%s&%s=%s", end, key, value)] and its siblings. *)
Definition addString (end_ : endpoint) (key value : string) : endpoint :=
  end_ ++ "&" ++ key ++ "=" ++ value.

Definition addBool (end_ : endpoint) (key : string) (value : bool) : endpoint :=
  end_ ++ "&" ++ key ++ "=" ++ Fmt.t value.

Definition addInt (end_ : endpoint) (key : string) (value : Z) : endpoint :=
  end_ ++ "&" ++ key ++ "=" ++ Fmt.d value.

Definition addFloat (end_ : endpoint) (key : string) (value : float32)
  : endpoint :=
  end_ ++ "&" ++ key ++ "=" ++ Fmt.f value.

(** ** [METARQuery] and its setters *)

Record METARQuery : Type := {
  station : option string;
  startTime : option Z;
  endTime : option Z;
  hoursBeforeNow : option float32;
  mostRecent : option bool;
  mostRecentForEachStation : option string;
  rectMinLat : option float32;
  rectMinLon : option float32;
  rectMaxLat : option float32;
  rectMaxLon : option float32;
  radRadius : option float32;
  radLat : option float32;
  radLon : option float32;
  fields : list string
}.

(** [new(METARQuery)]: every pointer is [nil], the slice is [nil]. *)
Definition new_METARQuery : METARQuery :=
  {| station := None; startTime := None; endTime := None;
     hoursBeforeNow := None; mostRecent := None;
     mostRecentForEachStation := None;
     rectMinLat := None; rectMinLon := None;
     rectMaxLat := None; rectMaxLon := None;
     radRadius := None; radLat := None; radLon := None;
     fields := [] |}.

Definition Station (value : string) (query : METARQuery) : METARQuery :=
  {| station := Some value;
     startTime := startTime query; endTime := endTime query;
     hoursBeforeNow := hoursBeforeNow query;
     mostRecent := mostRecent query;
     mostRecentForEachStation := mostRecentForEachStation query;
     rectMinLat := rectMinLat query; rectMinLon := rectMinLon query;
     rectMaxLat := rectMaxLat query; rectMaxLon := rectMaxLon query;
     radRadius := radRadius query; radLat := radLat query;
     radLon := radLon query;
     fields := fields query |}.

Definition Between (start end_ : time.Time) (query : METARQuery) : METARQuery :=
  let startUnix := time.Unix start in
  let endUnix := time.Unix end_ in
  {| station := station query;
     startTime := Some startUnix; endTime := Some endUnix;
     hoursBeforeNow := None;
     mostRecent := mostRecent query;
     mostRecentForEachStation := mostRecentForEachStation query;
     rectMinLat := rectMinLat query; rectMinLon := rectMinLon query;
     rectMaxLat := rectMaxLat query; rectMaxLon := rectMaxLon query;
     radRadius := radRadius query; radLat := radLat query;
     radLon := radLon query;
     fields := fields query |}.

Definition HoursBeforeNow (value : float32) (query : METARQuery) : METARQuery :=
  let value := Float32.abs value in
  {| station := station query;
     startTime := None; endTime := None;
     hoursBeforeNow := Some value;
     mostRecent := mostRecent query;
     mostRecentForEachStation := mostRecentForEachStation query;
     rectMinLat := rectMinLat query; rectMinLon := rectMinLon query;
     rectMaxLat := rectMaxLat query; rectMaxLon := rectMaxLon query;
     radRadius := radRadius query; radLat := radLat query;
     radLon := radLon query;
     fields := fields query |}.

Definition MostRecent (value : bool) (query : METARQuery) : METARQuery :=
  {| station := station query;
     startTime := startTime query; endTime := endTime query;
     hoursBeforeNow := hoursBeforeNow query;
     mostRecent := Some value;
     mostRecentForEachStation := None;
     rectMinLat := rectMinLat query; rectMinLon := rectMinLon query;
     rectMaxLat := rectMaxLat query; rectMaxLon := rectMaxLon query;
     radRadius := radRadius query; radLat := radLat query;
     radLon := radLon query;
     fields := fields query |}.

Definition MostRecentForEachStation (value : string) (query : METARQuery)
  : METARQuery :=
  {| station := station query;
     startTime := startTime query; endTime := endTime query;
     hoursBeforeNow := hoursBeforeNow query;
     mostRecent := None;
     mostRecentForEachStation := Some value;
     rectMinLat := rectMinLat query; rectMinLon := rectMinLon query;
     rectMaxLat := rectMaxLat query; rectMaxLon := rectMaxLon query;
     radRadius := radRadius query; radLat := radLat query;
     radLon := radLon query;
     fields := fields query |}.

Definition InRectangle (minLat minLon maxLat maxLon : float32)
  (query : METARQuery) : METARQuery :=
  let minLat := keepFloatInRange minLat (of_Z (-90)) (of_Z 90) in
  let minLon := keepFloatInRange minLon (of_Z (-180)) (of_Z 180) in
  let maxLat := keepFloatInRange maxLat (of_Z (-90)) (of_Z 90) in
  let maxLon := keepFloatInRange maxLon (of_Z (-180)) (of_Z 180) in
  {| station := station query;
     startTime := startTime query; endTime := endTime query;
     hoursBeforeNow := hoursBeforeNow query;
     mostRecent := mostRecent query;
     mostRecentForEachStation := mostRecentForEachStation query;
     rectMinLat := Some minLat; rectMinLon := Some minLon;
     rectMaxLat := Some maxLat; rectMaxLon := Some maxLon;
     radRadius := None; radLat := None; radLon := None;
     fields := fields query |}.

Definition RadialDistance (radius lat lon : float32) (query : METARQuery)
  : METARQuery :=
  let radius := keepFloatInRange radius (of_Z 0) (of_Z 500) in
  let radius := if Float32.eq radius (of_Z 0) then of_Z 1 else radius in
  let lat := keepFloatInRange lat (of_Z (-90)) (of_Z 90) in
  let lon := keepFloatInRange lon (of_Z (-180)) (of_Z 180) in
  {| station := station query;
     startTime := startTime query; endTime := endTime query;
     hoursBeforeNow := hoursBeforeNow query;
     mostRecent := mostRecent query;
     mostRecentForEachStation := mostRecentForEachStation query;
     rectMinLat := None; rectMinLon := None;
     rectMaxLat := None; rectMaxLon := None;
     radRadius := Some radius; radLat := Some lat; radLon := Some lon;
     fields := fields query |}.

Definition Fields (values : list string) (query : METARQuery) : METARQuery :=
  {| station := station query;
     startTime := startTime query; endTime := endTime query;
     hoursBeforeNow := hoursBeforeNow query;
     mostRecent := mostRecent query;
     mostRecentForEachStation := mostRecentForEachStation query;
     rectMinLat := rectMinLat query; rectMinLon := rectMinLon query;
     rectMaxLat := rectMaxLat query; rectMaxLon := rectMaxLon query;
     radRadius := radRadius query; radLat := radLat query;
     radLon := radLon query;
     fields := values |}.

(** ** Rendering

    A dereference [*p] of a [nil] pointer panics: [buildEndpoint] is a
    partial function and [None] stands for the panic. *)

Notation "'let*' x ':=' m 'in' k" :=
  (match m with Some x => k | None => None end)
  (at level 10, x name, m at level 100, k at level 200, only parsing).

Definition buildEndpoint (query : METARQuery) : option endpoint :=
  let end_ := endpointMETAR in
  let end_ :=
    match station query with
    | Some v => addString end_ "stationString" v
    | None => end_
    end in
  let* end_ :=
    match startTime query with
    | Some s =>
        let* e := endTime query in
        Some (addInt (addInt end_ "startTime" s) "endTime" e)
    | None => Some end_
    end in
  let end_ :=
    match hoursBeforeNow query with
    | Some v => addFloat end_ "hoursBeforeNow" v
    | None => end_
    end in
  let end_ :=
    match mostRecent query with
    | Some v => addBool end_ "mostRecent" v
    | None => end_
    end in
  let end_ :=
    match mostRecentForEachStation query with
    | Some v => addString end_ "mostRecentForEachStation" v
    | None => end_
    end in
  let* end_ :=
    match rectMinLat query with
    | Some minLat =>
        let* minLon := rectMinLon query in
        let* maxLat := rectMaxLat query in
        let* maxLon := rectMaxLon query in
        Some (addFloat (addFloat (addFloat (addFloat end_
                "minLat" minLat) "minLon" minLon) "maxLat" maxLat)
                "maxLon" maxLon)
    | None => Some end_
    end in
  let* end_ :=
    match radRadius query with
    | Some radius =>
        let* lon := radLon query in
        let* lat := radLat query in
        Some (addString end_ "radialDistance"
                (Fmt.f radius ++ ";" ++ Fmt.f lon ++ "," ++ Fmt.f lat))
    | None => Some end_
    end in
  let end_ :=
    match fields query with
    | [] => end_
    | _ :: _ => addString end_ "fields" (strings.Join (fields query) ",")
    end in
  Some end_.

(** ** Sequences of setter calls

    The fields of [METARQuery] are unexported: outside the package a query
    is [new(METARQuery)] followed by calls of the exported setters. *)

Inductive Setter : Type :=
| CallStation (value : string)
| CallBetween (start end_ : time.Time)
| CallHoursBeforeNow (value : float32)
| CallMostRecent (value : bool)
| CallMostRecentForEachStation (value : string)
| CallInRectangle (minLat minLon maxLat maxLon : float32)
| CallRadialDistance (radius lat lon : float32)
| CallFields (values : list string).

Definition call (c : Setter) (query : METARQuery) : METARQuery :=
  match c with
  | CallStation v => Station v query
  | CallBetween s e => Between s e query
  | CallHoursBeforeNow v => HoursBeforeNow v query
  | CallMostRecent v => MostRecent v query
  | CallMostRecentForEachStation v => MostRecentForEachStation v query
  | CallInRectangle a b c d => InRectangle a b c d query
  | CallRadialDistance r la lo => RadialDistance r la lo query
  | CallFields vs => Fields vs query
  end.

(** The calls are applied from left to right. *)
Definition run (calls : list Setter) (query : METARQuery) : METARQuery :=
  fold_left (fun q c => call c q) calls query.

Inductive reachable : METARQuery -> Prop :=
| reachable_new : reachable new_METARQuery
| reachable_call c query : reachable query -> reachable (call c query).

Definition isSome {A : Type} (o : option A) : bool :=
  match o with Some _ => true | None => false end.

(** The three groups of competing constraints. *)
Definition timeWindowSet (q : METARQuery) : bool :=
  isSome (startTime q) || isSome (endTime q).

Definition rectangleSet (q : METARQuery) : bool :=
  isSome (rectMinLat q) || isSome (rectMinLon q)
  || isSome (rectMaxLat q) || isSome (rectMaxLon q).

Definition radialSet (q : METARQuery) : bool :=
  isSome (radRadius q) || isSome (radLat q) || isSome (radLon q).

Definition exclusive (q : METARQuery) : bool :=
  negb (timeWindowSet q && isSome (hoursBeforeNow q))
  && negb (isSome (mostRecent q) && isSome (mostRecentForEachStation q))
  && negb (rectangleSet q && radialSet q).

(** Within a group of several pointers, all are [nil] or none is. *)
Definition groupsWhole (q : METARQuery) : bool :=
  Bool.eqb (isSome (startTime q)) (isSome (endTime q))
  && Bool.eqb (isSome (rectMinLat q)) (isSome (rectMinLon q))
  && Bool.eqb (isSome (rectMinLat q)) (isSome (rectMaxLat q))
  && Bool.eqb (isSome (rectMinLat q)) (isSome (rectMaxLon q))
  && Bool.eqb (isSome (radRadius q)) (isSome (radLat q))
  && Bool.eqb (isSome (radRadius q)) (isSome (radLon q)).

(** The number of occurrences of [pat] in [s]. *)
Fixpoint occurrences (pat s : string) : nat :=
  match s with
  | EmptyString => if String.prefix pat s then 1%nat else 0%nat
  | String _ s' =>
      ((if String.prefix pat s then 1 else 0) + occurrences pat s')%nat
  end.

(** ** The response *)

Module xml.
Record Name : Type := { Space : string; Local : string }.
End xml.

Record METARQualityControlFlags : Type := {
  Corrected : bool;
  Auto : bool;
  AutoStation : bool;
  MaintenanceIndicator : bool;
  NoSignal : bool;
  LightningSensorOff : bool;
  FreezingRainSensorOff : bool;
  PresentWeatherSensorOff : bool
}.

Record METARSkyCondition : Type := {
  SkyCover : string;
  CloudBaseFTAGL : Z
}.

Record METAR : Type := {
  RawText : string;
  StationID : string;
  ObservationTime : string;
  Latitude : float32;
  Longitude : float32;
  AirTempC : float32;
  DewPointC : float32;
  WindDirDegrees : Z;
  WindSpeedKT : Z;
  WindGustKT : Z;
  VisibilityStatuteMI : float32;
  AltimeterInHG : float32;
  SeaLevelPressureMB : float32;
  QualityControlFlags : METARQualityControlFlags;
  WXString : string;
  SkyConditions : list METARSkyCondition;
  FlightCategory : string;
  ThreeHRPressureTendencyMB : float32;
  MaxAirTemp6HC : float32;
  MinAirTemp6HC : float32;
  MaxAirTemp24HC : float32;
  MinAirTemp24HC : float32;
  PrecipitationIN : float32;
  Precipitation3HIN : float32;
  Precipitation6HIN : float32;
  Precipitation24HIN : float32;
  SnowDepthIN : float32;
  VerticalVisibilityFT : Z;
  METARType : string;
  ElevationM : float32
}.

Record METARResponse : Type := {
  XMLName : xml.Name;
  Errors : list string;
  Warnings : list string;
  METARs : list METAR
}.

(** [new(METARResponse)] *)
Definition new_METARResponse : METARResponse :=
  {| XMLName := {| xml.Space := ""; xml.Local := "" |};
     Errors := []; Warnings := []; METARs := [] |}.

(** ** [GetMETAR]

    The calls into [net/http], [io] and [encoding/xml] are the
    environment of the function.  Each call is recorded in a trace, so
    that what the function did, and in which order, can be read off. *)

Inductive Event : Type :=
| EvGet (url : string)
| EvReadAll
| EvClose
| EvUnmarshal (data : string).

Definition IO (A : Type) : Type := list Event -> A * list Event.

Definition ret {A : Type} (a : A) : IO A := fun tr => (a, tr).

Definition bind {A B : Type} (m : IO A) (k : A -> IO B) : IO B :=
  fun tr => let (a, tr') := m tr in k a tr'.

Definition emit (ev : Event) : IO unit := fun tr => (tt, (tr ++ [ev])%list).

(** [defer cleanup] followed by [body]: the clean-up runs when the
    function returns. *)
Definition defer {A : Type} (cleanup : IO unit) (body : IO A) : IO A :=
  bind body (fun a => bind cleanup (fun _ => ret a)).

Notation "x <- m ;; k" := (bind m (fun x => k))
  (at level 61, m at next level, right associativity).

Section Fetch.

(** The error values that the libraries hand back. *)
Variable LibError : Type.

(** An [error] met by [GetMETAR] is either allocated by the package
    with [errors.New], and then different from every other error value,
    or one that a library call returned. *)
Inductive error : Type :=
| errors_New (text : string)
| fromLibrary (e : LibError).

(** What [io.ReadAll] finds in a response body. *)
Record ReadCloser : Type := {
  content : string;
  readError : option LibError
}.

Record Response : Type := {
  StatusCode : Z;
  Body : ReadCloser
}.

(** [http.Get]: a response or a transport error. *)
Variable http_Get : string -> Response + LibError.

(** [xml.Unmarshal(data, v)]: the value [v] as the decoder left it,
    and the error if there is one. *)
Variable xml_Unmarshal :
  string -> METARResponse -> METARResponse * option LibError.

Definition Get (url : string) : IO (Response + LibError) :=
  _ <- emit (EvGet url) ;; ret (http_Get url).

Definition ReadAll (r : ReadCloser) : IO (string * option LibError) :=
  _ <- emit EvReadAll ;; ret (content r, readError r).

Definition Close (r : ReadCloser) : IO unit := emit EvClose.

Definition Unmarshal (data : string) (v : METARResponse)
  : IO (METARResponse * option LibError) :=
  _ <- emit (EvUnmarshal data) ;; ret (xml_Unmarshal data v).

(** What a call of [GetMETAR] ends in: the two results, or a panic. *)
Inductive Outcome : Type :=
| Returns (response : option METARResponse) (err : option error)
| Panics.

Definition GetMETAR (query : METARQuery) : IO Outcome :=
  match buildEndpoint query with
  | None => ret Panics
  | Some url =>
      r <- Get url ;;
      match r with
      | inr err => ret (Returns None (Some (fromLibrary err)))
      | inl httpResponse =>
          if (StatusCode httpResponse <? 200)
             || (StatusCode httpResponse >? 299)
          then
            ret (Returns None
                   (Some (errors_New
                            ("unexpected status code: "
                             ++ Fmt.d (StatusCode httpResponse)))))
          else
            defer (Close (Body httpResponse))
              (rd <- ReadAll (Body httpResponse) ;;
               match rd with
               | (_, Some err) =>
                   ret (Returns None (Some (fromLibrary err)))
               | (body, None) =>
                   let response := new_METARResponse in
                   u <- Unmarshal body response ;;
                   match u with
                   | (_, Some err) =>
                       ret (Returns None (Some (fromLibrary err)))
                   | (response, None) =>
                       ret (Returns (Some response) None)
                   end
               end)
      end
  end.

End Fetch.

Arguments errors_New {LibError}.
Arguments fromLibrary {LibError}.
Arguments Returns {LibError}.
Arguments Panics {LibError}.
Arguments content {LibError}.
Arguments readError {LibError}.
Arguments StatusCode {LibError}.
Arguments Body {LibError}.
Arguments Build_ReadCloser {LibError}.
Arguments Build_Response {LibError}.
Arguments GetMETAR {LibError}.

(** ** A decoder to run [GetMETAR] against canned responses

    [GetMETAR] is stated for every decoder.  To run it on a concrete
    body, this module gives one: a decoder for a fragment of XML (an
    optional declaration, elements with attributes in single or double
    quotes, character data without entity references), which fills a
    [METARResponse] along the [xml:"..."] tags of the structs.  An input
    outside the fragment is refused with an error. *)

Module Decoder.

#[local] Set Warnings "-register-all".

Inductive DecodeError : Type :=
| SyntaxError
| NoRootElement
| UnexpectedRoot (have : string)
| BadValue (text : string)
| OutOfRange (text : string).

Inductive Token : Type :=
| TStart (name : string) (attrs : list (string * string))
| TEnd (name : string)
| TText (text : string).

Inductive Node : Type :=
| Element (name : string) (attrs : list (string * string))
    (children : list Node)
| CharData (text : string).

Definition isSpace (c : ascii) : bool :=
  let n := nat_of_ascii c in
  (n =? 32)%nat || (n =? 9)%nat || (n =? 10)%nat || (n =? 13)%nat.

Definition between (lo hi : nat) (c : ascii) : bool :=
  let n := nat_of_ascii c in (lo <=? n)%nat && (n <=? hi)%nat.

Definition isDigit (c : ascii) : bool := between 48 57 c.

Definition isNameChar (c : ascii) : bool :=
  between 97 122 c || between 65 90 c || isDigit c
  || Ascii.eqb c "_" || Ascii.eqb c "-" || Ascii.eqb c "."
  || Ascii.eqb c ":".

Definition isQuote (c : ascii) : bool :=
  let n := nat_of_ascii c in (n =? 34)%nat || (n =? 39)%nat.

(** The longest prefix of [s] whose characters satisfy [p], and the
    rest. *)
Fixpoint span (p : ascii -> bool) (s : string) : string * string :=
  match s with
  | String c r =>
      if p c then let (a, b) := span p r in (String c a, b)
      else (EmptyString, s)
  | EmptyString => (EmptyString, EmptyString)
  end.

Definition skipSpace (s : string) : string := snd (span isSpace s).

(** What follows the first occurrence of [pat] in [s]. *)
Fixpoint skipPast (pat s : string) : option string :=
  if String.prefix pat s
  then Some (String.substring (String.length pat) (String.length s) s)
  else match s with
       | String _ r => skipPast pat r
       | EmptyString => None
       end.

Fixpoint mem (c : ascii) (s : string) : bool :=
  match s with
  | String c' r => Ascii.eqb c c' || mem c r
  | EmptyString => false
  end.

(** The attributes of a start tag, up to the closing [>] or [/>]. *)
Fixpoint lexAttrs (fuel : nat) (s : string) (acc : list (string * string))
  : option (list (string * string) * bool * string) :=
  match fuel with
  | O => None
  | S fuel' =>
      match skipSpace s with
      | String ">" r => Some (rev acc, false, r)
      | String "/" (String ">" r) => Some (rev acc, true, r)
      | s1 =>
          let (name, r1) := span isNameChar s1 in
          match name, skipSpace r1 with
          | String _ _, String "=" r2 =>
              match skipSpace r2 with
              | String q r3 =>
                  if isQuote q then
                    let (value, r4) :=
                      span (fun c => negb (Ascii.eqb c q)) r3 in
                    match r4 with
                    | String _ r5 =>
                        if mem "<" value || mem "&" value then None
                        else lexAttrs fuel' r5 ((name, value) :: acc)
                    | EmptyString => None
                    end
                  else None
              | EmptyString => None
              end
          | _, _ => None
          end
      end
  end.

Fixpoint lex (fuel : nat) (s : string) (acc : list Token)
  : option (list Token) :=
  match fuel with
  | O => None
  | S fuel' =>
      match s with
      | EmptyString => Some (rev acc)
      | String "<" (String "?" r) =>
          match skipPast "?>" r with
          | Some r' => lex fuel' r' acc
          | None => None
          end
      | String "<" (String "!" _) => None
      | String "<" (String "/" r) =>
          let (name, r1) := span isNameChar r in
          match name, skipSpace r1 with
          | String _ _, String ">" r2 => lex fuel' r2 (TEnd name :: acc)
          | _, _ => None
          end
      | String "<" r =>
          let (name, r1) := span isNameChar r in
          match name with
          | String _ _ =>
              match lexAttrs fuel' r1 [] with
              | Some (attrs, true, r2) =>
                  lex fuel' r2 (TEnd name :: TStart name attrs :: acc)
              | Some (attrs, false, r2) =>
                  lex fuel' r2 (TStart name attrs :: acc)
              | None => None
              end
          | EmptyString => None
          end
      | _ =>
          let (text, r) := span (fun c => negb (Ascii.eqb c "<")) s in
          if mem "&" text then None
          else lex fuel' r (TText text :: acc)
      end
  end.

(** The forest of a token sequence; [opened] is the stack of the
    elements not closed yet, each with the siblings before it. *)
Fixpoint build (toks : list Token)
  (opened : list (string * list (string * string) * list Node))
  (cur : list Node) : option (list Node) :=
  match toks with
  | [] => match opened with [] => Some (rev cur) | _ :: _ => None end
  | TText text :: r => build r opened (CharData text :: cur)
  | TStart name attrs :: r => build r ((name, attrs, cur) :: opened) []
  | TEnd name :: r =>
      match opened with
      | (name', attrs, outer) :: opened' =>
          if String.eqb name name'
          then build r opened' (Element name attrs (rev cur) :: outer)
          else None
      | [] => None
      end
  end.

Definition parse (data : string) : option (list Node) :=
  match lex (S (String.length data)) data [] with
  | Some toks => build toks [] []
  | None => None
  end.

(** The character data directly inside an element. *)
Definition textOf (children : list Node) : string :=
  String.concat ""
    (flat_map (fun n => match n with
                        | CharData text => [text]
                        | Element _ _ _ => []
                        end) children).

(** The child elements called [name], in document order. *)
Definition childrenNamed (name : string) (children : list Node)
  : list (list (string * string) * list Node) :=
  flat_map (fun n => match n with
                     | Element name' attrs kids =>
                         if String.eqb name name' then [(attrs, kids)]
                         else []
                     | CharData _ => []
                     end) children.

(** The elements reached along a path [parent>child]. *)
Definition alongPath (parent child : string) (children : list Node)
  : list (list (string * string) * list Node) :=
  flat_map (fun p => childrenNamed child (snd p))
    (childrenNamed parent children).

Definition trimLeft (s : string) : string := skipSpace s.

Fixpoint trimRight (s : string) : string :=
  match s with
  | String c r =>
      match trimRight r with
      | EmptyString => if isSpace c then EmptyString
                       else String c EmptyString
      | r' => String c r'
      end
  | EmptyString => EmptyString
  end.

Definition TrimSpace (s : string) : string := trimRight (trimLeft s).

(** The value of a sequence of decimal digits. *)
Fixpoint digitsValue (s : string) (acc : Z) : option Z :=
  match s with
  | EmptyString => Some acc
  | String c r =>
      if isDigit c
      then digitsValue r (10 * acc + Z.of_nat (nat_of_ascii c - 48))
      else None
  end.

Definition splitSign (s : string) : bool * string :=
  match s with
  | String "-" r => (true, r)
  | String "+" r => (false, r)
  | _ => (false, s)
  end.

(** [strconv.ParseInt(s, 10, 64)] *)
Definition ParseInt (s : string) : DecodeError + Z :=
  let (neg, ds) := splitSign s in
  match ds with
  | EmptyString => inl (BadValue s)
  | String _ _ =>
      match digitsValue ds 0 with
      | Some n =>
          let v := if neg then - n else n in
          if (- 2 ^ 63 <=? v) && (v <? 2 ^ 63) then inr v
          else inl (OutOfRange s)
      | None => inl (BadValue s)
      end
  end.

(** [strconv.ParseBool] *)
Definition ParseBool (s : string) : DecodeError + bool :=
  if existsb (String.eqb s) ["1"; "t"; "T"; "TRUE"; "true"; "True"]
  then inr true
  else if existsb (String.eqb s) ["0"; "f"; "F"; "FALSE"; "false"; "False"]
  then inr false
  else inl (BadValue s).

(** The [float32] nearest to [num / den] ([num], [den] positive). *)
Definition nearest (neg : bool) (num den : Z) : float32 :=
  let '(m, e, l) := SFdiv_core_binary Float32.prec Float32.emax num 0 den 0 in
  binary_round_aux Float32.prec Float32.emax neg m e l.

(** [strconv.ParseFloat(s, 32)] on plain decimal numbers: an optional
    sign, digits, and an optional fraction. *)
Definition ParseFloat (s : string) : DecodeError + float32 :=
  let (neg, body) := splitSign s in
  let (int_, r) := span isDigit body in
  let frac :=
    match r with
    | EmptyString => Some EmptyString
    | String "." (String c r') =>
        if isDigit c then Some (String c r') else None
    | _ => None
    end in
  match int_, frac with
  | String _ _, Some frac =>
      match digitsValue (int_ ++ frac) 0 with
      | Some 0 => inr (S754_zero neg)
      | Some num =>
          match nearest neg num (10 ^ Z.of_nat (String.length frac)) with
          | S754_infinity _ => inl (OutOfRange s)
          | x => inr x
          end
      | None => inl (BadValue s)
      end
  | _, _ => inl (BadValue s)
  end.

Notation "'try' x ':=' m 'in' k" :=
  (match m with inr x => k | inl err => inl err end)
  (at level 10, x name, m at level 100, k at level 200, only parsing).

(** [copyValue] into a field of kind string, int, float32 or bool. *)
Definition asString (src : string) : DecodeError + string := inr src.

Definition asInt (src : string) : DecodeError + Z :=
  match src with
  | EmptyString => inr 0
  | _ => ParseInt (TrimSpace src)
  end.

Definition asFloat (src : string) : DecodeError + float32 :=
  match src with
  | EmptyString => inr (S754_zero false)
  | _ => ParseFloat (TrimSpace src)
  end.

Definition asBool (src : string) : DecodeError + bool :=
  match src with
  | EmptyString => inr false
  | _ => ParseBool (TrimSpace src)
  end.

(** Every source in [srcs] is converted; the field keeps the last
    value, or [zero] when there is none. *)
Fixpoint assign {A : Type} (conv : string -> DecodeError + A) (zero : A)
  (srcs : list string) : DecodeError + A :=
  match srcs with
  | [] => inr zero
  | src :: rest =>
      try v := conv src in
      assign conv v rest
  end.

Fixpoint collect {A B : Type} (conv : A -> DecodeError + B) (l : list A)
  : DecodeError + list B :=
  match l with
  | [] => inr []
  | a :: rest =>
      try b := conv a in
      try bs := collect conv rest in
      inr (b :: bs)
  end.

(** The sources of a field tagged with the element name [name]. *)
Definition element (name : string) (children : list Node) : list string :=
  map (fun p => textOf (snd p)) (childrenNamed name children).

(** The sources of a field tagged [name,attr]. *)
Definition attribute (name : string) (attrs : list (string * string))
  : list string :=
  map snd (filter (fun p => String.eqb name (fst p)) attrs).

Definition decodeFlags (groups : list (list Node))
  : DecodeError + METARQualityControlFlags :=
  let kids := List.concat groups in
  let flag name := assign asBool false (element name kids) in
  try corrected := flag "corrected" in
  try auto := flag "auto" in
  try auto_station := flag "auto_station" in
  try maintenance_indicator := flag "maintenance_indicator" in
  try no_signal := flag "no_signal" in
  try lightning_sensor_off := flag "lightning_sensor_off" in
  try freezing_rain_sensor_off := flag "freezing_rain_sensor_off" in
  try present_weather_sensor_off := flag "present_weather_sensor_off" in
  inr {| Corrected := corrected;
         Auto := auto;
         AutoStation := auto_station;
         MaintenanceIndicator := maintenance_indicator;
         NoSignal := no_signal;
         LightningSensorOff := lightning_sensor_off;
         FreezingRainSensorOff := freezing_rain_sensor_off;
         PresentWeatherSensorOff := present_weather_sensor_off |}.

Definition decodeSkyCondition (el : list (string * string) * list Node)
  : DecodeError + METARSkyCondition :=
  try sky_cover := assign asString "" (attribute "sky_cover" (fst el)) in
  try cloud_base_ft_agl :=
    assign asInt 0 (attribute "cloud_base_ft_agl" (fst el)) in
  inr {| SkyCover := sky_cover; CloudBaseFTAGL := cloud_base_ft_agl |}.

Definition decodeMETAR (el : list (string * string) * list Node)
  : DecodeError + METAR :=
  let kids := snd el in
  let str name := assign asString "" (element name kids) in
  let int name := assign asInt 0 (element name kids) in
  let flt name := assign asFloat (S754_zero false) (element name kids) in
  try raw_text := str "raw_text" in
  try station_id := str "station_id" in
  try observation_time := str "observation_time" in
  try latitude := flt "latitude" in
  try longitude := flt "longitude" in
  try temp_c := flt "temp_c" in
  try dewpoint_c := flt "dewpoint_c" in
  try wind_dir_degrees := int "wind_dir_degrees" in
  try wind_speed_kt := int "wind_speed_kt" in
  try wind_gust_kt := int "wind_gust_kt" in
  try visibility_statute_mi := flt "visibility_statute_mi" in
  try altim_in_hg := flt "altim_in_hg" in
  try sea_level_pressure_mb := flt "sea_level_pressure_mb" in
  try quality_control_flags :=
    decodeFlags (map snd (childrenNamed "quality_control_flags" kids)) in
  try wx_string := str "wx_string" in
  try sky_condition :=
    collect decodeSkyCondition (childrenNamed "sky_condition" kids) in
  try flight_category := str "flight_category" in
  try three_hr_pressure_tendency_mb :=
    flt "three_hr_pressure_tendency_mb" in
  try maxT_c := flt "maxT_c" in
  try minT_c := flt "minT_c" in
  try maxT24hr_c := flt "maxT24hr_c" in
  try minT24hr_c := flt "minT24hr_c" in
  try precip_in := flt "precip_in" in
  try pcp3hr_in := flt "pcp3hr_in" in
  try pcp6hr_in := flt "pcp6hr_in" in
  try pcp24hr_in := flt "pcp24hr_in" in
  try snow_in := flt "snow_in" in
  try vert_vis_ft := int "vert_vis_ft" in
  try metar_type := str "metar_type" in
  try elevation_m := flt "elevation_m" in
  inr {| RawText := raw_text;
         StationID := station_id;
         ObservationTime := observation_time;
         Latitude := latitude;
         Longitude := longitude;
         AirTempC := temp_c;
         DewPointC := dewpoint_c;
         WindDirDegrees := wind_dir_degrees;
         WindSpeedKT := wind_speed_kt;
         WindGustKT := wind_gust_kt;
         VisibilityStatuteMI := visibility_statute_mi;
         AltimeterInHG := altim_in_hg;
         SeaLevelPressureMB := sea_level_pressure_mb;
         QualityControlFlags := quality_control_flags;
         WXString := wx_string;
         SkyConditions := sky_condition;
         FlightCategory := flight_category;
         ThreeHRPressureTendencyMB := three_hr_pressure_tendency_mb;
         MaxAirTemp6HC := maxT_c;
         MinAirTemp6HC := minT_c;
         MaxAirTemp24HC := maxT24hr_c;
         MinAirTemp24HC := minT24hr_c;
         PrecipitationIN := precip_in;
         Precipitation3HIN := pcp3hr_in;
         Precipitation6HIN := pcp6hr_in;
         Precipitation24HIN := pcp24hr_in;
         SnowDepthIN := snow_in;
         VerticalVisibilityFT := vert_vis_ft;
         METARType := metar_type;
         ElevationM := elevation_m |}.

(** The first element of the document. *)
Fixpoint root (nodes : list Node)
  : option (string * list (string * string) * list Node) :=
  match nodes with
  | Element name attrs kids :: _ => Some (name, attrs, kids)
  | CharData _ :: rest => root rest
  | [] => None
  end.

(** The decoder.  The lists of [v] are appended to.  When a record of
    the [data] element is refused, the error and warning strings stay
    in the value handed back with the error. *)
Definition Unmarshal (data : string) (v : METARResponse)
  : METARResponse * option DecodeError :=
  match parse data with
  | None => (v, Some SyntaxError)
  | Some nodes =>
      match root nodes with
      | None => (v, Some NoRootElement)
      | Some (name, _, kids) =>
          if negb (String.eqb name "response")
          then (v, Some (UnexpectedRoot name))
          else
            let texts parent child :=
              map (fun p => textOf (snd p)) (alongPath parent child kids) in
            let partial :=
              {| XMLName := {| xml.Space := ""; xml.Local := name |};
                 Errors := (Errors v ++ texts "errors" "error")%list;
                 Warnings :=
                   (Warnings v ++ texts "warnings" "warning")%list;
                 METARs := METARs v |} in
            match collect decodeMETAR (alongPath "data" "METAR" kids) with
            | inl err => (partial, Some err)
            | inr records =>
                ({| XMLName := XMLName partial;
                    Errors := Errors partial;
                    Warnings := Warnings partial;
                    METARs := (METARs v ++ records)%list |}, None)
            end
      end
  end.

(** A server that answers every request with [status] and [body]. *)
Definition server (status : Z) (body : string)
  : string -> Response DecodeError + DecodeError :=
  fun _ => inl (Build_Response status (Build_ReadCloser body None)).

(** A server that cannot be reached. *)
Definition unreachable (err : DecodeError)
  : string -> Response DecodeError + DecodeError :=
  fun _ => inr err.

(** A response of the service with one error, one warning and one
    record. *)
Definition canned : string :=
"<?xml version='1.0' encoding='UTF-8'?>
<response version='1.2'>
<request_index>42</request_index>
<data_source name='metars' />
<request type='retrieve' />
<errors>
  <error>Query must be constrained by time</error>
</errors>
<warnings>
  <warning>Results limited to 1000</warning>
</warnings>
<time_taken_ms>3</time_taken_ms>
<data num_results='1'>
  <METAR>
    <raw_text>EDDF 262150Z VRB02KT CAVOK 02/M01 Q1033 NOSIG</raw_text>
    <station_id>EDDF</station_id>
    <observation_time>2021-02-26T21:50:00Z</observation_time>
    <latitude>50.05</latitude>
    <longitude>8.6</longitude>
    <temp_c>2.0</temp_c>
    <dewpoint_c>-1.0</dewpoint_c>
    <wind_dir_degrees>0</wind_dir_degrees>
    <wind_speed_kt>2</wind_speed_kt>
    <visibility_statute_mi>6.21</visibility_statute_mi>
    <altim_in_hg>30.505905</altim_in_hg>
    <quality_control_flags>
      <no_signal>TRUE</no_signal>
    </quality_control_flags>
    <sky_condition sky_cover='CAVOK' />
    <sky_condition sky_cover='FEW' cloud_base_ft_agl='4500' />
    <flight_category>VFR</flight_category>
    <metar_type>METAR</metar_type>
    <elevation_m>113.0</elevation_m>
  </METAR>
</data>
</response>
".

End Decoder.

(** ** Vocabulary of the statements *)

(** [r] is [v] clamped to [[lo, hi]]: [r] lies in the interval, a [v]
    at or below [lo] gives [lo], a [v] at or above [hi] gives [hi], and
    a [v] strictly between the two is kept. *)
Definition clampedTo (lo hi v r : float32) : Prop :=
  within lo hi r
  /\ (Float32.le v lo = true -> r = lo)
  /\ (Float32.ge v hi = true -> r = hi)
  /\ (Float32.le v lo = false -> Float32.ge v hi = false -> r = v).

(** The field holds [v] clamped to [[lo, hi]]. *)
Definition holdsClamped (lo hi v : float32) (field : option float32) : Prop :=
  exists r, field = Some r /\ clampedTo lo hi v r.

(** The radius rule: clamp to [[0, 500]], then turn a zero into one. *)
Definition holdsRadius (radius : float32) (field : option float32) : Prop :=
  exists c,
    clampedTo (of_Z 0) (of_Z 500) radius c
    /\ field = Some (if Float32.eq c (of_Z 0) then of_Z 1 else c).

(** What [RadialDistance radius lat lon] is to leave in the query. *)
Definition radialStored (radius lat lon : float32) (q : METARQuery) : Prop :=
  holdsRadius radius (radRadius q)
  /\ holdsClamped (of_Z (-90)) (of_Z 90) lat (radLat q)
  /\ holdsClamped (of_Z (-180)) (of_Z 180) lon (radLon q).

(** What [InRectangle minLat minLon maxLat maxLon] is to leave in the
    query. *)
Definition rectangleStored (minLat minLon maxLat maxLon : float32)
  (q : METARQuery) : Prop :=
  holdsClamped (of_Z (-90)) (of_Z 90) minLat (rectMinLat q)
  /\ holdsClamped (of_Z (-180)) (of_Z 180) minLon (rectMinLon q)
  /\ holdsClamped (of_Z (-90)) (of_Z 90) maxLat (rectMaxLat q)
  /\ holdsClamped (of_Z (-180)) (of_Z 180) maxLon (rectMaxLon q).

(** The query without its radial filter and without its field list. *)
Definition withoutRadial (q : METARQuery) : METARQuery :=
  {| station := station q;
     startTime := startTime q; endTime := endTime q;
     hoursBeforeNow := hoursBeforeNow q;
     mostRecent := mostRecent q;
     mostRecentForEachStation := mostRecentForEachStation q;
     rectMinLat := rectMinLat q; rectMinLon := rectMinLon q;
     rectMaxLat := rectMaxLat q; rectMaxLon := rectMaxLon q;
     radRadius := None; radLat := None; radLon := None;
     fields := [] |}.

(** The segment that a field list adds to the URL. *)
Definition fieldsSegment (values : list string) : string :=
  match values with
  | [] => ""
  | _ :: _ => "&fields=" ++ strings.Join values ","
  end.

(** The sign of a bound: not positive, or positive. *)
Definition notPositive (x : float32) : bool :=
  match x with
  | S754_zero _ | S754_finite true _ _ | S754_infinity true => true
  | _ => false
  end.

Definition isPositive (x : float32) : bool :=
  match x with
  | S754_finite false _ _ | S754_infinity false => true
  | _ => false
  end.

(** A float that is not a number. *)
Definition NaN : float32 := S754_nan.

(** ** Vocabulary of the further properties *)

(** Go's [x < y] on floats. *)
Definition float_lt (x y : float32) : bool := SFltb x y.

(** A float with a mantissa: neither a zero, nor infinite, nor NaN. *)
Definition isFinite (x : float32) : bool :=
  match x with S754_finite _ _ _ => true | _ => false end.

(** What a stored coordinate, a stored radius and a stored number of
    hours can be. *)
Definition inRangeOrNaN (lo hi : float32) (field : option float32) : Prop :=
  forall r, field = Some r -> is_nan r = true \/ within lo hi r.

Definition radiusOrNaN (field : option float32) : Prop :=
  forall r, field = Some r ->
    is_nan r = true
    \/ (float_lt (of_Z 0) r = true /\ Float32.le r (of_Z 500) = true).

Definition notNegativeOrNaN (field : option float32) : Prop :=
  forall r, field = Some r ->
    is_nan r = true \/ Float32.le (of_Z 0) r = true.

Definition rangesKept (q : METARQuery) : Prop :=
  notNegativeOrNaN (hoursBeforeNow q)
  /\ inRangeOrNaN (of_Z (-90)) (of_Z 90) (rectMinLat q)
  /\ inRangeOrNaN (of_Z (-180)) (of_Z 180) (rectMinLon q)
  /\ inRangeOrNaN (of_Z (-90)) (of_Z 90) (rectMaxLat q)
  /\ inRangeOrNaN (of_Z (-180)) (of_Z 180) (rectMaxLon q)
  /\ radiusOrNaN (radRadius q)
  /\ inRangeOrNaN (of_Z (-90)) (of_Z 90) (radLat q)
  /\ inRangeOrNaN (of_Z (-180)) (of_Z 180) (radLon q).

(** The constraint that a setter belongs to. *)
Inductive Group : Type := GStation | GTime | GRecent | GSpatial | GFields.

Definition group (c : Setter) : Group :=
  match c with
  | CallStation _ => GStation
  | CallBetween _ _ | CallHoursBeforeNow _ => GTime
  | CallMostRecent _ | CallMostRecentForEachStation _ => GRecent
  | CallInRectangle _ _ _ _ | CallRadialDistance _ _ _ => GSpatial
  | CallFields _ => GFields
  end.

(** The pointer tests of [buildEndpoint] that are followed by the
    dereference of a [nil] sibling. *)
Definition dereferencesNil (q : METARQuery) : bool :=
  (isSome (startTime q) && negb (isSome (endTime q)))
  || (isSome (rectMinLat q)
      && negb (isSome (rectMinLon q) && isSome (rectMaxLat q)
               && isSome (rectMaxLon q)))
  || (isSome (radRadius q)
      && negb (isSome (radLon q) && isSome (radLat q))).

(** What each block of [buildEndpoint] adds to the URL. *)
Definition stationSegment (q : METARQuery) : string :=
  match station q with
  | Some v => "&stationString=" ++ v
  | None => ""
  end.

Definition timeSegment (q : METARQuery) : string :=
  match startTime q, endTime q with
  | Some s, Some e => "&startTime=" ++ Fmt.d s ++ "&endTime=" ++ Fmt.d e
  | _, _ => ""
  end.

Definition hoursSegment (q : METARQuery) : string :=
  match hoursBeforeNow q with
  | Some v => "&hoursBeforeNow=" ++ Fmt.f v
  | None => ""
  end.

Definition recentSegment (q : METARQuery) : string :=
  match mostRecent q with
  | Some v => "&mostRecent=" ++ Fmt.t v
  | None => ""
  end.

Definition recentEachSegment (q : METARQuery) : string :=
  match mostRecentForEachStation q with
  | Some v => "&mostRecentForEachStation=" ++ v
  | None => ""
  end.

Definition rectangleSegment (q : METARQuery) : string :=
  match rectMinLat q, rectMinLon q, rectMaxLat q, rectMaxLon q with
  | Some a, Some b, Some c, Some d =>
      "&minLat=" ++ Fmt.f a ++ "&minLon=" ++ Fmt.f b
      ++ "&maxLat=" ++ Fmt.f c ++ "&maxLon=" ++ Fmt.f d
  | _, _, _, _ => ""
  end.

Definition radialSegment (q : METARQuery) : string :=
  match radRadius q, radLon q, radLat q with
  | Some r, Some lo, Some la =>
      "&radialDistance=" ++ Fmt.f r ++ ";" ++ Fmt.f lo ++ "," ++ Fmt.f la
  | _, _, _ => ""
  end.

Definition segments (q : METARQuery) : string :=
  stationSegment q ++ timeSegment q ++ hoursSegment q ++ recentSegment q
  ++ recentEachSegment q ++ rectangleSegment q ++ radialSegment q
  ++ fieldsSegment (fields q).

(** The first character of a string, if any. *)
Definition firstChar (s : string) : option ascii :=
  match s with
  | String c _ => Some c
  | EmptyString => None
  end.

(** * Properties *)

(** ** Comparisons of floats *)

Lemma SFcompare_antisym (x y : float32) (c : comparison) :
  SFcompare x y = Some c -> SFcompare y x = Some (CompOpp c).
Proof.
  destruct x as [sx|sx| |sx mx ex], y as [sy|sy| |sy my ey]; simpl;
    try discriminate;
    try (destruct sx; intros [= <-]; reflexivity);
    try (destruct sy; intros [= <-]; reflexivity);
    try (destruct sx, sy; intros [= <-]; reflexivity).
  intros [= <-].
  rewrite (Z.compare_antisym ex ey).
  destruct sx, sy; simpl; try reflexivity;
    destruct (ex ?= ey); simpl; try reflexivity;
    rewrite (ZC4 my mx); try rewrite CompOpp_involutive; reflexivity.
Qed.

Lemma SFcompare_refl (x : float32) :
  is_nan x = false -> SFcompare x x = Some Eq.
Proof.
  destruct x as [s|s| |s m e]; simpl; try discriminate; intros _.
  - reflexivity.
  - destruct s; reflexivity.
  - rewrite Z.compare_refl, Pcompare_refl. destruct s; reflexivity.
Qed.

Lemma SFcompare_defined (x y : float32) :
  is_nan x = false -> is_nan y = false -> exists c, SFcompare x y = Some c.
Proof.
  destruct x, y; simpl; try discriminate; intros _ _; eexists; reflexivity.
Qed.

Lemma float_le_not_nan (x y : float32) :
  Float32.le x y = true -> is_nan x = false /\ is_nan y = false.
Proof.
  destruct x, y; simpl; try discriminate; auto.
Qed.

Lemma float_le_refl (x : float32) :
  is_nan x = false -> Float32.le x x = true.
Proof.
  intros H. unfold Float32.le, SFleb. rewrite (SFcompare_refl x H).
  reflexivity.
Qed.

Lemma float_not_le_flip (x y : float32) :
  is_nan x = false -> is_nan y = false ->
  Float32.le x y = false -> Float32.le y x = true.
Proof.
  intros Hx Hy. unfold Float32.le, SFleb.
  destruct (SFcompare_defined x y Hx Hy) as [c Hc].
  rewrite Hc, (SFcompare_antisym x y c Hc).
  destruct c; simpl; congruence.
Qed.

Lemma float_not_ge_le (x y : float32) :
  is_nan x = false -> is_nan y = false ->
  Float32.ge x y = false -> Float32.le x y = true.
Proof.
  intros Hx Hy. unfold Float32.ge, Float32.le, SFleb.
  destruct (SFcompare_defined x y Hx Hy) as [c Hc].
  rewrite Hc. destruct c; simpl; congruence.
Qed.

(** ** [keepFloatInRange] *)

Lemma keepFloatInRange_below (v lo hi : float32) :
  Float32.le v lo = true -> keepFloatInRange v lo hi = lo.
Proof. intros H. unfold keepFloatInRange. rewrite H. reflexivity. Qed.

Lemma keepFloatInRange_above (v lo hi : float32) :
  Float32.le v lo = false -> Float32.ge v hi = true ->
  keepFloatInRange v lo hi = hi.
Proof.
  intros H1 H2. unfold keepFloatInRange. rewrite H1, H2. reflexivity.
Qed.

Lemma keepFloatInRange_inside (v lo hi : float32) :
  Float32.le v lo = false -> Float32.ge v hi = false ->
  keepFloatInRange v lo hi = v.
Proof.
  intros H1 H2. unfold keepFloatInRange. rewrite H1, H2. reflexivity.
Qed.

Lemma keepFloatInRange_nan (lo hi : float32) :
  keepFloatInRange S754_nan lo hi = S754_nan.
Proof. destruct lo, hi; reflexivity. Qed.

Lemma keepFloatInRange_within (v lo hi : float32) :
  Float32.le lo hi = true -> is_nan v = false ->
  within lo hi (keepFloatInRange v lo hi).
Proof.
  intros Hlh Hv. destruct (float_le_not_nan _ _ Hlh) as [Hlo Hhi].
  unfold keepFloatInRange, within.
  destruct (Float32.le v lo) eqn:E1.
  - split; [apply float_le_refl; assumption | assumption].
  - destruct (Float32.ge v hi) eqn:E2.
    + split; [assumption | apply float_le_refl; assumption].
    + split; [apply float_not_le_flip | apply float_not_ge_le]; assumption.
Qed.

(** A lower bound that is not positive and a positive upper bound are
    never met at once. *)
Lemma below_above_disjoint (lo hi v : float32) :
  notPositive lo = true -> isPositive hi = true ->
  Float32.le v lo = true -> Float32.ge v hi = true -> False.
Proof.
  destruct lo as [sl|sl| |sl ml el], hi as [sh|sh| |sh mh eh];
    try destruct sl; try destruct sh; simpl; try discriminate;
    intros _ _; destruct v as [s|s| |s m e]; try destruct s; simpl;
    discriminate.
Qed.

Lemma bounds_ordered (lo hi : float32) :
  notPositive lo = true -> isPositive hi = true -> Float32.le lo hi = true.
Proof.
  destruct lo as [sl|sl| |sl ml el], hi as [sh|sh| |sh mh eh];
    try destruct sl; try destruct sh; simpl; try discriminate; reflexivity.
Qed.

Lemma keepFloatInRange_clamped (lo hi v : float32) :
  notPositive lo = true -> isPositive hi = true -> is_nan v = false ->
  clampedTo lo hi v (keepFloatInRange v lo hi).
Proof.
  intros Hlo Hhi Hv. repeat split.
  - apply keepFloatInRange_within; [apply bounds_ordered|]; assumption.
  - apply keepFloatInRange_within; [apply bounds_ordered|]; assumption.
  - apply keepFloatInRange_below.
  - intros Hge. apply keepFloatInRange_above; [|assumption].
    destruct (Float32.le v lo) eqn:E; [|reflexivity].
    exfalso. exact (below_above_disjoint lo hi v Hlo Hhi E Hge).
  - apply keepFloatInRange_inside.
Qed.

Lemma clampedTo_not_nan (lo hi v r : float32) :
  clampedTo lo hi v r -> is_nan r = false.
Proof.
  intros [[H _] _]. apply float_le_not_nan in H. tauto.
Qed.

(** The results stay among the values of type [float32]. *)
Lemma constants_wf :
  wf (of_Z (-180)) /\ wf (of_Z (-90)) /\ wf (of_Z 0) /\ wf (of_Z 1)
  /\ wf (of_Z 90) /\ wf (of_Z 180) /\ wf (of_Z 500).
Proof. repeat split; reflexivity. Qed.

Lemma keepFloatInRange_wf (v lo hi : float32) :
  wf v -> wf lo -> wf hi -> wf (keepFloatInRange v lo hi).
Proof.
  intros Hv Hlo Hhi. unfold keepFloatInRange.
  destruct (Float32.le v lo); [exact Hlo|].
  destruct (Float32.ge v hi); assumption.
Qed.

Lemma abs_wf (v : float32) : wf v -> wf (Float32.abs v).
Proof. destruct v; intros H; exact H. Qed.

(** ** Invariants of the builder *)

Lemma append_assoc (a b c : string) : (a ++ b) ++ c = a ++ (b ++ c).
Proof. induction a as [|x a IH]; simpl; [reflexivity | now rewrite IH]. Qed.

Lemma append_empty (a : string) : a ++ "" = a.
Proof. induction a as [|x a IH]; simpl; [reflexivity | now rewrite IH]. Qed.

Lemma call_groupsWhole (c : Setter) (q : METARQuery) :
  groupsWhole q = true -> groupsWhole (call c q) = true.
Proof.
  unfold groupsWhole. intros H.
  repeat (apply andb_prop in H; destruct H as [H ?]).
  destruct c; simpl; repeat (apply andb_true_intro; split);
    first [assumption | reflexivity].
Qed.

Lemma reachable_groupsWhole (q : METARQuery) :
  reachable q -> groupsWhole q = true.
Proof.
  induction 1 as [|c q _ IH]; [reflexivity | now apply call_groupsWhole].
Qed.

Lemma call_exclusive (c : Setter) (q : METARQuery) :
  exclusive q = true -> exclusive (call c q) = true.
Proof.
  unfold exclusive. intros H.
  repeat (apply andb_prop in H; destruct H as [H ?]).
  destruct c; simpl; repeat (apply andb_true_intro; split);
    try assumption; try reflexivity;
    unfold timeWindowSet, rectangleSet, radialSet; simpl;
    rewrite ?andb_false_r; reflexivity.
Qed.

Lemma reachable_exclusive (q : METARQuery) :
  reachable q -> exclusive q = true.
Proof.
  induction 1 as [|c q _ IH]; [reflexivity | now apply call_exclusive].
Qed.

Lemma run_reachable (calls : list Setter) (q : METARQuery) :
  reachable q -> reachable (run calls q).
Proof.
  revert q. induction calls as [|c calls IH]; intros q H; simpl.
  - exact H.
  - apply IH. now constructor.
Qed.

Lemma run_snoc (calls : list Setter) (c : Setter) (q : METARQuery) :
  run (calls ++ [c]) q = call c (run calls q).
Proof. unfold run. rewrite fold_left_app. reflexivity. Qed.

(** The reachable queries are the results of the sequences of calls. *)
Lemma reachable_iff_run (q : METARQuery) :
  reachable q <-> exists calls, q = run calls new_METARQuery.
Proof.
  split.
  - induction 1 as [|c q _ [calls ->]].
    + exists []. reflexivity.
    + exists (calls ++ [c])%list. symmetry. apply run_snoc.
  - intros [calls ->]. apply run_reachable, reachable_new.
Qed.

Lemma groupsWhole_buildEndpoint (q : METARQuery) :
  groupsWhole q = true -> exists url, buildEndpoint q = Some url.
Proof.
  unfold groupsWhole, buildEndpoint. intros H.
  repeat (apply andb_prop in H; destruct H as [H ?]).
  destruct (startTime q), (endTime q); try discriminate;
    destruct (rectMinLat q), (rectMinLon q); try discriminate;
    destruct (rectMaxLat q); try discriminate;
    destruct (rectMaxLon q); try discriminate;
    destruct (radRadius q), (radLat q); try discriminate;
    destruct (radLon q); try discriminate;
    eexists; reflexivity.
Qed.

Lemma reachable_buildEndpoint (q : METARQuery) :
  reachable q -> exists url, buildEndpoint q = Some url.
Proof.
  intros H. apply groupsWhole_buildEndpoint, reachable_groupsWhole, H.
Qed.

(** ** The shape of the rendered URL *)

Ltac split_pointers q :=
  destruct (startTime q); [destruct (endTime q)|];
  (destruct (rectMinLat q);
   [destruct (rectMinLon q);
    [destruct (rectMaxLat q); [destruct (rectMaxLon q)|]|]|]);
  (destruct (radRadius q);
   [destruct (radLon q); [destruct (radLat q)|]|]).

Ltac abstract_prefix :=
  match goal with
  | |- Some (addString (addString ?X _ _) _ _) = _ => generalize X
  | |- Some (addString ?X _ _) = _ => generalize X
  | |- Some ?X = _ => generalize X
  end;
  let X := fresh "X" in
  intros X; unfold addString;
  repeat first [rewrite append_assoc | progress cbn [append]];
  rewrite ?append_empty; reflexivity.

Lemma buildEndpoint_fields (q : METARQuery) (pre : endpoint) :
  buildEndpoint (Fields [] q) = Some pre ->
  forall values,
    buildEndpoint (Fields values q) = Some (pre ++ fieldsSegment values).
Proof.
  unfold buildEndpoint. simpl. intros H values.
  split_pointers q; try discriminate;
    injection H as <-; destruct values; simpl fieldsSegment;
    abstract_prefix.
Qed.

Lemma buildEndpoint_radial (q : METARQuery) (r la lo : float32)
  (pre : endpoint) :
  radRadius q = Some r -> radLat q = Some la -> radLon q = Some lo ->
  buildEndpoint (withoutRadial q) = Some pre ->
  buildEndpoint q
  = Some (pre ++ "&radialDistance=" ++ Fmt.f r ++ ";" ++ Fmt.f lo ++ ","
            ++ Fmt.f la ++ fieldsSegment (fields q)).
Proof.
  unfold buildEndpoint. simpl. intros -> -> -> H.
  destruct (startTime q); [destruct (endTime q)|];
    (destruct (rectMinLat q);
     [destruct (rectMinLon q);
      [destruct (rectMaxLat q); [destruct (rectMaxLon q)|]|]|]);
    try discriminate;
    injection H as <-; destruct (fields q); simpl fieldsSegment;
    abstract_prefix.
Qed.

Lemma groupsWhole_withoutRadial (q : METARQuery) :
  groupsWhole q = true -> groupsWhole (withoutRadial q) = true.
Proof.
  unfold groupsWhole. intros H.
  repeat (apply andb_prop in H; destruct H as [H ?]).
  simpl. repeat (apply andb_true_intro; split);
    first [assumption | reflexivity].
Qed.

(** ** The query builder *)

(** C1.  In every query reached from [new(METARQuery)] by setter calls,
    at most one member of each group of competing constraints is set:
    not both a time window and hours-before-now, not both [mostRecent]
    and [mostRecentForEachStation], not both a rectangle and a radial
    filter.  Moreover [Between] clears [hoursBeforeNow],
    [HoursBeforeNow] clears [startTime] and [endTime], [MostRecent]
    and [MostRecentForEachStation] clear each other, [InRectangle]
    clears the three radial fields and [RadialDistance] the four
    rectangle fields. *)
Theorem setters_keep_groups_exclusive (q : METARQuery) :
  reachable q ->
  exclusive q = true
  /\ (forall s e, hoursBeforeNow (Between s e q) = None)
  /\ (forall h,
        startTime (HoursBeforeNow h q) = None
        /\ endTime (HoursBeforeNow h q) = None)
  /\ (forall b, mostRecentForEachStation (MostRecent b q) = None)
  /\ (forall v, mostRecent (MostRecentForEachStation v q) = None)
  /\ (forall a b c d,
        radRadius (InRectangle a b c d q) = None
        /\ radLat (InRectangle a b c d q) = None
        /\ radLon (InRectangle a b c d q) = None)
  /\ (forall r la lo,
        rectMinLat (RadialDistance r la lo q) = None
        /\ rectMinLon (RadialDistance r la lo q) = None
        /\ rectMaxLat (RadialDistance r la lo q) = None
        /\ rectMaxLon (RadialDistance r la lo q) = None).
Proof.
  intros H. split; [apply reachable_exclusive, H|].
  repeat split; reflexivity.
Qed.

Lemma setters_keep_groups_exclusive_witness :
  let q :=
    call (CallInRectangle (of_Z 40) (of_Z 5) (of_Z 50) (of_Z 15))
      (call (CallRadialDistance (of_Z 20) (of_Z 45) (of_Z 10))
         (call (CallBetween {| time.Unix := 1600000000 |}
                  {| time.Unix := 1600003600 |})
            (call (CallHoursBeforeNow (of_Z 3)) new_METARQuery))) in
  exclusive q = true
  /\ hoursBeforeNow q = None /\ radRadius q = None
  /\ isSome (startTime q) = true /\ isSome (rectMinLat q) = true.
Proof.
  intros q. split.
  - apply (setters_keep_groups_exclusive q).
    repeat apply reachable_call. apply reachable_new.
  - repeat split; reflexivity.
Defined.

(** C10.  In every query reached by setter calls the pointers of a group
    are all [nil] or all set ([startTime] with [endTime]; the four
    corners of the rectangle; the three radial fields), and therefore
    [buildEndpoint], which tests one pointer of a group and dereferences
    the others, returns a URL and never dereferences [nil]. *)
Theorem reachable_groups_whole_buildEndpoint_safe (q : METARQuery) :
  reachable q ->
  groupsWhole q = true /\ exists url, buildEndpoint q = Some url.
Proof.
  intros H. split.
  - apply reachable_groupsWhole, H.
  - apply reachable_buildEndpoint, H.
Qed.

Lemma reachable_groups_whole_buildEndpoint_safe_witness :
  let q :=
    call (CallFields ["raw_text"])
      (call (CallInRectangle (of_Z 40) (of_Z 5) (of_Z 50) (of_Z 15))
         (call (CallBetween {| time.Unix := 1600000000 |}
                  {| time.Unix := 1600003600 |}) new_METARQuery)) in
  groupsWhole q = true /\ exists url, buildEndpoint q = Some url.
Proof.
  intros q. apply (reachable_groups_whole_buildEndpoint_safe q).
  repeat apply reachable_call. apply reachable_new.
Defined.

(** C4.  [HoursBeforeNow] stores the absolute value of its argument, so
    a value [h] and its opposite [-h] (here [SFopp h]) give the same
    query and the same URL.  This holds for every float, the positive
    ones in particular. *)
Theorem HoursBeforeNow_ignores_sign (h : float32) (q : METARQuery) :
  reachable q ->
  hoursBeforeNow (HoursBeforeNow h q) = Some (Float32.abs h)
  /\ Float32.abs (SFopp h) = Float32.abs h
  /\ HoursBeforeNow (SFopp h) q = HoursBeforeNow h q
  /\ exists url,
       buildEndpoint (HoursBeforeNow (SFopp h) q) = Some url
       /\ buildEndpoint (HoursBeforeNow h q) = Some url.
Proof.
  intros H.
  assert (E : Float32.abs (SFopp h) = Float32.abs h)
    by (destruct h; reflexivity).
  split; [reflexivity|]. split; [exact E|].
  assert (Q : HoursBeforeNow (SFopp h) q = HoursBeforeNow h q)
    by (unfold HoursBeforeNow; rewrite E; reflexivity).
  split; [exact Q|].
  destruct (reachable_buildEndpoint (HoursBeforeNow h q)
              (reachable_call (CallHoursBeforeNow h) q H)) as [url Hurl].
  exists url. rewrite Q. split; exact Hurl.
Qed.

Lemma HoursBeforeNow_ignores_sign_witness :
  buildEndpoint
    (HoursBeforeNow (SFopp (of_Z 2)) (Station "EDDF" new_METARQuery))
  = buildEndpoint (HoursBeforeNow (of_Z 2) (Station "EDDF" new_METARQuery))
  /\ buildEndpoint
       (HoursBeforeNow (SFopp (of_Z 2)) (Station "EDDF" new_METARQuery))
     = Some (endpointMETAR ++ "&stationString=EDDF&hoursBeforeNow=2.000000").
Proof.
  destruct (HoursBeforeNow_ignores_sign (of_Z 2) (Station "EDDF" new_METARQuery)
              (reachable_call (CallStation "EDDF") _ reachable_new))
    as (_ & _ & _ & url & H1 & H2).
  split.
  - rewrite H1, H2. reflexivity.
  - reflexivity.
Defined.

(** C5 (as amended).  [InRectangle] treats its four coordinates
    independently.  Each coordinate that is a number is stored clamped:
    a latitude into [[-90, 90]], a longitude into [[-180, 180]], a value
    at or below the lower bound raised to it, a value at or above the
    upper bound lowered to it, a value in between kept.  In particular
    [InRectangle(-200, -300, 200, 300)] stores [-90], [-180], [90] and
    [180], and renders them so. *)
Theorem InRectangle_clamps_each_number
  (minLat minLon maxLat maxLon : float32) (query : METARQuery) :
  let q := InRectangle minLat minLon maxLat maxLon query in
  (is_nan minLat = false ->
   holdsClamped (of_Z (-90)) (of_Z 90) minLat (rectMinLat q))
  /\ (is_nan minLon = false ->
      holdsClamped (of_Z (-180)) (of_Z 180) minLon (rectMinLon q))
  /\ (is_nan maxLat = false ->
      holdsClamped (of_Z (-90)) (of_Z 90) maxLat (rectMaxLat q))
  /\ (is_nan maxLon = false ->
      holdsClamped (of_Z (-180)) (of_Z 180) maxLon (rectMaxLon q))
  /\ (let e := InRectangle (of_Z (-200)) (of_Z (-300)) (of_Z 200) (of_Z 300)
                 query in
      rectMinLat e = Some (of_Z (-90)) /\ rectMinLon e = Some (of_Z (-180))
      /\ rectMaxLat e = Some (of_Z 90) /\ rectMaxLon e = Some (of_Z 180))
  /\ buildEndpoint
       (InRectangle (of_Z (-200)) (of_Z (-300)) (of_Z 200) (of_Z 300)
          new_METARQuery)
     = Some (endpointMETAR
             ++ "&minLat=-90.000000&minLon=-180.000000"
             ++ "&maxLat=90.000000&maxLon=180.000000").
Proof.
  intros q. unfold q, holdsClamped. simpl.
  repeat split; try reflexivity; intros H; eexists;
    (split; [reflexivity|]); apply keepFloatInRange_clamped;
    first [reflexivity | exact H].
Qed.

Lemma InRectangle_clamps_each_number_witness :
  let q := InRectangle (of_Z 100) NaN (of_Z 12) (of_Z (-181)) new_METARQuery in
  holdsClamped (of_Z (-90)) (of_Z 90) (of_Z 100) (rectMinLat q)
  /\ holdsClamped (of_Z (-90)) (of_Z 90) (of_Z 12) (rectMaxLat q)
  /\ holdsClamped (of_Z (-180)) (of_Z 180) (of_Z (-181)) (rectMaxLon q)
  /\ rectMinLat q = Some (of_Z 90) /\ rectMaxLat q = Some (of_Z 12)
  /\ rectMaxLon q = Some (of_Z (-180)).
Proof.
  intros q.
  destruct (InRectangle_clamps_each_number
              (of_Z 100) NaN (of_Z 12) (of_Z (-181)) new_METARQuery)
    as (H1 & _ & H3 & H4 & _).
  split; [apply H1; reflexivity|].
  split; [apply H3; reflexivity|].
  split; [apply H4; reflexivity|].
  repeat split; reflexivity.
Defined.

(** C5 as stated fails on a coordinate that is not a number: both
    comparisons of [keepFloatInRange] are false on a NaN, which is
    returned, stored and rendered as it is. *)
Lemma InRectangle_stores_nan :
  let q := InRectangle NaN (of_Z (-10)) (of_Z 50) (of_Z 10) new_METARQuery in
  rectMinLat q = Some NaN
  /\ buildEndpoint q
     = Some (endpointMETAR
             ++ "&minLat=NaN&minLon=-10.000000"
             ++ "&maxLat=50.000000&maxLon=10.000000")
  /\ ~ rectangleStored NaN (of_Z (-10)) (of_Z 50) (of_Z 10) q.
Proof.
  intros q. split; [reflexivity|]. split; [reflexivity|].
  intros [[r [Hr Hc]] _].
  apply clampedTo_not_nan in Hc.
  injection Hr as <-. discriminate Hc.
Qed.

(** C3 (as amended).  [RadialDistance] stores a radius that is a number
    clamped to [[0, 500]] and then, if it equals zero, replaced by one;
    it stores a latitude and a longitude that are numbers clamped to
    [[-90, 90]] and [[-180, 180]].  [RadialDistance(0, lat, lon)] and
    [RadialDistance(-10, 45, 45)] store and render the radius one. *)
Theorem RadialDistance_clamps_each_number
  (radius lat lon : float32) (query : METARQuery) :
  let q := RadialDistance radius lat lon query in
  (is_nan radius = false -> holdsRadius radius (radRadius q))
  /\ (is_nan lat = false ->
      holdsClamped (of_Z (-90)) (of_Z 90) lat (radLat q))
  /\ (is_nan lon = false ->
      holdsClamped (of_Z (-180)) (of_Z 180) lon (radLon q))
  /\ radRadius (RadialDistance (of_Z 0) lat lon query) = Some (of_Z 1)
  /\ radRadius (RadialDistance (of_Z (-10)) (of_Z 45) (of_Z 45) query)
     = Some (of_Z 1)
  /\ buildEndpoint (RadialDistance (of_Z 0) lat lon new_METARQuery)
     = Some (endpointMETAR ++ "&radialDistance=1.000000;"
             ++ Fmt.f (keepFloatInRange lon (of_Z (-180)) (of_Z 180)) ++ ","
             ++ Fmt.f (keepFloatInRange lat (of_Z (-90)) (of_Z 90)))
  /\ buildEndpoint
       (RadialDistance (of_Z (-10)) (of_Z 45) (of_Z 45) new_METARQuery)
     = Some (endpointMETAR ++ "&radialDistance=1.000000;45.000000,45.000000").
Proof.
  intros q. unfold q, holdsClamped, holdsRadius.
  split; [|split; [|split; [|repeat split; reflexivity]]].
  - intros H. exists (keepFloatInRange radius (of_Z 0) (of_Z 500)).
    split; [|reflexivity].
    apply keepFloatInRange_clamped; first [reflexivity | exact H].
  - intros H. eexists. split; [reflexivity|].
    apply keepFloatInRange_clamped; first [reflexivity | exact H].
  - intros H. eexists. split; [reflexivity|].
    apply keepFloatInRange_clamped; first [reflexivity | exact H].
Qed.

Lemma RadialDistance_clamps_each_number_witness :
  let q := RadialDistance (of_Z 900) (of_Z (-95)) (of_Z 7) new_METARQuery in
  holdsRadius (of_Z 900) (radRadius q)
  /\ holdsClamped (of_Z (-90)) (of_Z 90) (of_Z (-95)) (radLat q)
  /\ holdsClamped (of_Z (-180)) (of_Z 180) (of_Z 7) (radLon q)
  /\ radRadius q = Some (of_Z 500) /\ radLat q = Some (of_Z (-90))
  /\ radLon q = Some (of_Z 7).
Proof.
  intros q.
  destruct (RadialDistance_clamps_each_number
              (of_Z 900) (of_Z (-95)) (of_Z 7) new_METARQuery)
    as (H1 & H2 & H3 & _).
  split; [apply H1; reflexivity|].
  split; [apply H2; reflexivity|].
  split; [apply H3; reflexivity|].
  repeat split; reflexivity.
Defined.

(** C3 as stated fails on a radius that is not a number: it passes
    through the clamp and through the test against zero, and the query
    renders [NaN] as the radius. *)
Lemma RadialDistance_stores_nan :
  let q := RadialDistance NaN (of_Z 45) (of_Z 45) new_METARQuery in
  radRadius q = Some NaN
  /\ buildEndpoint q
     = Some (endpointMETAR ++ "&radialDistance=NaN;45.000000,45.000000")
  /\ ~ radialStored NaN (of_Z 45) (of_Z 45) q.
Proof.
  intros q. split; [reflexivity|]. split; [reflexivity|].
  intros [[c [Hc Hr]] _].
  apply clampedTo_not_nan in Hc.
  change (radRadius q) with (Some NaN) in Hr.
  destruct (Float32.eq c (of_Z 0)); injection Hr as Hr.
  - vm_compute in Hr. discriminate Hr.
  - rewrite <- Hr in Hc. discriminate Hc.
Qed.

(** ** Rendering *)

(** C7.  In a query reached by setter calls whose radial filter is set,
    the three radial fields are rendered as one segment,
    [&radialDistance=radius;lon,lat], added to what the query renders
    without the filter and followed by the field list only: a
    semicolon after the radius, then the longitude, a comma, and the
    latitude.  The setter takes the latitude before the longitude:
    [RadialDistance(10, 45, -120)] renders [10.000000;-120.000000,45.000000]. *)
Theorem radial_filter_renders_radius_lon_lat (q : METARQuery) :
  reachable q ->
  (forall r, radRadius q = Some r ->
     exists la lo pre,
       radLat q = Some la /\ radLon q = Some lo
       /\ buildEndpoint (withoutRadial q) = Some pre
       /\ buildEndpoint q
          = Some (pre ++ "&radialDistance=" ++ Fmt.f r ++ ";" ++ Fmt.f lo
                    ++ "," ++ Fmt.f la ++ fieldsSegment (fields q)))
  /\ (forall radius lat lon,
        exists r pre,
          radRadius (RadialDistance radius lat lon q) = Some r
          /\ buildEndpoint (withoutRadial (RadialDistance radius lat lon q))
             = Some pre
          /\ buildEndpoint (RadialDistance radius lat lon q)
             = Some (pre ++ "&radialDistance=" ++ Fmt.f r ++ ";"
                       ++ Fmt.f (keepFloatInRange lon (of_Z (-180)) (of_Z 180))
                       ++ ","
                       ++ Fmt.f (keepFloatInRange lat (of_Z (-90)) (of_Z 90))
                       ++ fieldsSegment (fields q)))
  /\ buildEndpoint
       (RadialDistance (of_Z 10) (of_Z 45) (of_Z (-120)) new_METARQuery)
     = Some (endpointMETAR
             ++ "&radialDistance=10.000000;-120.000000,45.000000").
Proof.
  intros H. pose proof (reachable_groupsWhole q H) as G.
  split; [|split; [|reflexivity]].
  - intros r Hr.
    destruct (groupsWhole_buildEndpoint _ (groupsWhole_withoutRadial q G))
      as [pre Hpre].
    unfold groupsWhole in G.
    repeat (apply andb_prop in G; destruct G as [G ?]).
    rewrite Hr in *.
    destruct (radLat q) as [la|] eqn:Ela; [|discriminate].
    destruct (radLon q) as [lo|] eqn:Elo; [|discriminate].
    exists la, lo, pre. repeat split; try assumption.
    now apply buildEndpoint_radial.
  - intros radius lat lon.
    assert (G' : groupsWhole (RadialDistance radius lat lon q) = true)
      by (apply (call_groupsWhole (CallRadialDistance radius lat lon)), G).
    destruct (groupsWhole_buildEndpoint _
                (groupsWhole_withoutRadial _ G')) as [pre Hpre].
    eexists. exists pre. split; [reflexivity|]. split; [exact Hpre|].
    apply (buildEndpoint_radial (RadialDistance radius lat lon q));
      first [reflexivity | exact Hpre].
Qed.

Lemma radial_filter_renders_radius_lon_lat_witness :
  let q :=
    call (CallFields ["raw_text"])
      (call (CallRadialDistance (of_Z 10) (of_Z 45) (of_Z (-120)))
         (call (CallStation "KSFO") new_METARQuery)) in
  exists la lo pre,
    radLat q = Some la /\ radLon q = Some lo
    /\ buildEndpoint (withoutRadial q) = Some pre
    /\ buildEndpoint q
       = Some (pre ++ "&radialDistance=" ++ Fmt.f (of_Z 10) ++ ";" ++ Fmt.f lo
                 ++ "," ++ Fmt.f la ++ fieldsSegment (fields q)).
Proof.
  intros q.
  apply (proj1 (radial_filter_renders_radius_lon_lat q
                  (reachable_call _ _
                     (reachable_call _ _
                        (reachable_call _ _ reachable_new))))).
  reflexivity.
Defined.

(** C8.  [Fields] replaces the field list, whatever it was, and a query
    whose fields are [raw_text] and [station_id] renders them as the one
    segment [&fields=raw_text,station_id], joined by a comma, at the end
    of what the query renders without fields.  On a query with nothing
    else set, [fields=] occurs once in the URL. *)
Theorem Fields_replaces_and_renders_once (q : METARQuery) (pre : endpoint) :
  buildEndpoint (Fields [] q) = Some pre ->
  (forall old new, fields (Fields new (Fields old q)) = new)
  /\ (forall old new, Fields new (Fields old q) = Fields new q)
  /\ buildEndpoint (Fields ["raw_text"; "station_id"] q)
     = Some (pre ++ "&fields=raw_text,station_id")
  /\ buildEndpoint (Fields ["raw_text"; "station_id"] new_METARQuery)
     = Some (endpointMETAR ++ "&fields=raw_text,station_id")
  /\ option_map (occurrences "fields=")
       (buildEndpoint (Fields ["raw_text"; "station_id"] new_METARQuery))
     = Some 1%nat.
Proof.
  intros H. split; [reflexivity|]. split; [reflexivity|].
  split; [|split; reflexivity].
  apply (buildEndpoint_fields q pre H).
Qed.

Lemma Fields_replaces_and_renders_once_witness :
  let q := MostRecent true (HoursBeforeNow (of_Z 1)
                              (Fields ["elevation_m"]
                                 (Station "EDDF" new_METARQuery))) in
  buildEndpoint (Fields ["raw_text"; "station_id"] q)
  = Some (endpointMETAR
          ++ "&stationString=EDDF&hoursBeforeNow=1.000000&mostRecent=true"
          ++ "&fields=raw_text,station_id").
Proof.
  intros q.
  apply (Fields_replaces_and_renders_once q
           (endpointMETAR
            ++ "&stationString=EDDF&hoursBeforeNow=1.000000&mostRecent=true")).
  reflexivity.
Defined.

(** ** [GetMETAR] *)

Lemma status_outside_iff (code : Z) :
  (code <? 200) || (code >? 299) = true <-> code < 200 \/ 299 < code.
Proof.
  rewrite orb_true_iff, Z.ltb_lt, Z.gtb_ltb, Z.ltb_lt. reflexivity.
Qed.

Lemma status_inside_iff (code : Z) :
  (code <? 200) || (code >? 299) = false <-> 200 <= code <= 299.
Proof.
  rewrite orb_false_iff, Z.ltb_ge, Z.gtb_ltb, Z.ltb_ge. reflexivity.
Qed.

Section FetchProperties.

Context {LibError : Type}.
Variable http_Get : string -> Response LibError + LibError.
Variable xml_Unmarshal :
  string -> METARResponse -> METARResponse * option LibError.

(** The outcome and the trace of a call whose URL got a response. *)
Lemma GetMETAR_refused (query : METARQuery) (url : string)
  (resp : Response LibError) (tr : list Event) :
  buildEndpoint query = Some url -> http_Get url = inl resp ->
  StatusCode resp < 200 \/ 299 < StatusCode resp ->
  GetMETAR http_Get xml_Unmarshal query tr
  = (Returns None
       (Some (errors_New
                ("unexpected status code: " ++ Fmt.d (StatusCode resp)))),
     (tr ++ [EvGet url])%list).
Proof.
  intros Hurl Hget Hcode. apply status_outside_iff in Hcode.
  unfold GetMETAR, Get, bind, emit, ret. rewrite Hurl, Hget, Hcode.
  reflexivity.
Qed.

Lemma GetMETAR_accepted (query : METARQuery) (url : string)
  (resp : Response LibError) (tr : list Event) :
  buildEndpoint query = Some url -> http_Get url = inl resp ->
  200 <= StatusCode resp <= 299 ->
  GetMETAR http_Get xml_Unmarshal query tr
  = match readError (Body resp) with
    | Some err =>
        (Returns None (Some (fromLibrary err)),
         (tr ++ [EvGet url] ++ [EvReadAll] ++ [EvClose])%list)
    | None =>
        (match xml_Unmarshal (content (Body resp)) new_METARResponse with
         | (_, Some err) => Returns None (Some (fromLibrary err))
         | (response, None) => Returns (Some response) None
         end,
         (tr ++ [EvGet url] ++ [EvReadAll]
             ++ [EvUnmarshal (content (Body resp))] ++ [EvClose])%list)
    end.
Proof.
  intros Hurl Hget Hcode. apply status_inside_iff in Hcode.
  unfold GetMETAR, Get, ReadAll, Unmarshal, Close, defer, bind, emit, ret.
  rewrite Hurl, Hget, Hcode.
  destruct (readError (Body resp)) as [err|].
  - rewrite <- !app_assoc. reflexivity.
  - destruct (xml_Unmarshal (content (Body resp)) new_METARResponse)
      as [response [err|]]; rewrite <- !app_assoc; reflexivity.
Qed.

Lemma GetMETAR_unreachable (query : METARQuery) (url : string)
  (err : LibError) (tr : list Event) :
  buildEndpoint query = Some url -> http_Get url = inr err ->
  GetMETAR http_Get xml_Unmarshal query tr
  = (Returns None (Some (fromLibrary err)), (tr ++ [EvGet url])%list).
Proof.
  intros Hurl Hget.
  unfold GetMETAR, Get, bind, emit, ret. rewrite Hurl, Hget. reflexivity.
Qed.

(** C2.  A call whose query renders to [url] fails with an error made by
    [errors.New] exactly when [http.Get] answered with a status code
    below 200 or above 299.  The text of the error names the code; the
    result pointer is [nil]; and the call to [http.Get] is all the
    function did: the body is neither read nor decoded. *)
Theorem GetMETAR_unexpected_status (query : METARQuery) (url : string)
  (tr : list Event) :
  buildEndpoint query = Some url ->
  ((exists response text,
      fst (GetMETAR http_Get xml_Unmarshal query tr)
      = Returns response (Some (errors_New text)))
   <-> (exists resp,
          http_Get url = inl resp
          /\ (StatusCode resp < 200 \/ 299 < StatusCode resp)))
  /\ (forall resp,
        http_Get url = inl resp ->
        StatusCode resp < 200 \/ 299 < StatusCode resp ->
        fst (GetMETAR http_Get xml_Unmarshal query tr)
        = Returns None
            (Some (errors_New
                     ("unexpected status code: " ++ Fmt.d (StatusCode resp))))
        /\ snd (GetMETAR http_Get xml_Unmarshal query tr)
           = (tr ++ [EvGet url])%list).
Proof.
  intros Hurl. split.
  - split.
    + intros (response & text & H).
      destruct (http_Get url) as [resp|err] eqn:Hget.
      * exists resp. split; [reflexivity|].
        destruct (Z_lt_dec (StatusCode resp) 200) as [|Hlo]; [now left|].
        destruct (Z_lt_dec 299 (StatusCode resp)) as [|Hhi]; [now right|].
        exfalso.
        rewrite (GetMETAR_accepted query url resp tr Hurl Hget) in H by lia.
        destruct (readError (Body resp)); [discriminate H|].
        destruct (xml_Unmarshal _ _) as [r [e|]]; discriminate H.
      * rewrite (GetMETAR_unreachable query url err tr Hurl Hget) in H.
        discriminate H.
    + intros (resp & Hget & Hcode).
      rewrite (GetMETAR_refused query url resp tr Hurl Hget Hcode).
      eexists. eexists. reflexivity.
  - intros resp Hget Hcode.
    rewrite (GetMETAR_refused query url resp tr Hurl Hget Hcode).
    split; reflexivity.
Qed.

(** C6.  When the status code lies in [[200, 299]], the body is read
    and the decoder accepts it, the call returns the decoded response
    and a [nil] error, whatever the response holds: a response with one
    error string, one warning string and one record is returned with
    its three lists of length one. *)
Theorem GetMETAR_returns_embedded_errors (query : METARQuery) (url : string)
  (resp : Response LibError) (body : string) (r : METARResponse)
  (tr : list Event) :
  buildEndpoint query = Some url ->
  http_Get url = inl resp ->
  200 <= StatusCode resp <= 299 ->
  Body resp = {| content := body; readError := None |} ->
  xml_Unmarshal body new_METARResponse = (r, None) ->
  fst (GetMETAR http_Get xml_Unmarshal query tr) = Returns (Some r) None
  /\ (List.length (Errors r) = 1%nat -> List.length (Warnings r) = 1%nat ->
      List.length (METARs r) = 1%nat ->
      exists response,
        fst (GetMETAR http_Get xml_Unmarshal query tr)
        = Returns (Some response) None
        /\ List.length (Errors response) = 1%nat
        /\ List.length (Warnings response) = 1%nat
        /\ List.length (METARs response) = 1%nat).
Proof.
  intros Hurl Hget Hcode Hbody Hdec.
  assert (E : fst (GetMETAR http_Get xml_Unmarshal query tr)
              = Returns (Some r) None).
  { rewrite (GetMETAR_accepted query url resp tr Hurl Hget Hcode).
    rewrite Hbody. simpl. rewrite Hdec. reflexivity. }
  split; [exact E|].
  intros He Hw Hm. exists r. auto.
Qed.

(** C9.  When the status code lies in [[200, 299]] and the body is read
    but the decoder refuses it, the call fails with the error of the
    decoder and returns a [nil] response, whatever the decoder had
    filled in.  On every path that returns an error the response is
    [nil]. *)
Theorem GetMETAR_decode_error (query : METARQuery) (url : string)
  (resp : Response LibError) (body : string) (partial : METARResponse)
  (err : LibError) (tr : list Event) :
  buildEndpoint query = Some url ->
  http_Get url = inl resp ->
  200 <= StatusCode resp <= 299 ->
  Body resp = {| content := body; readError := None |} ->
  xml_Unmarshal body new_METARResponse = (partial, Some err) ->
  fst (GetMETAR http_Get xml_Unmarshal query tr)
  = Returns None (Some (fromLibrary err))
  /\ (forall query' tr' response e,
        fst (GetMETAR http_Get xml_Unmarshal query' tr')
        = Returns response (Some e) ->
        response = None).
Proof.
  intros Hurl Hget Hcode Hbody Hdec. split.
  - rewrite (GetMETAR_accepted query url resp tr Hurl Hget Hcode).
    rewrite Hbody. simpl. rewrite Hdec. reflexivity.
  - clear. intros query' tr' response e.
    unfold GetMETAR, Get, ReadAll, Unmarshal, Close, defer, bind, emit, ret.
    destruct (buildEndpoint query') as [url'|]; [|discriminate].
    destruct (http_Get url') as [resp'|err']; [|simpl; congruence].
    destruct ((StatusCode resp' <? 200) || (StatusCode resp' >? 299));
      [simpl; congruence|].
    destruct (readError (Body resp')); [simpl; congruence|].
    destruct (xml_Unmarshal _ _) as [r [e'|]]; simpl; congruence.
Qed.

End FetchProperties.

(** ** The theorems on canned responses *)

Lemma GetMETAR_unexpected_status_witness :
  let q := MostRecent true (HoursBeforeNow (of_Z 1)
                              (Station "EDDF" new_METARQuery)) in
  let url := endpointMETAR
             ++ "&stationString=EDDF&hoursBeforeNow=1.000000&mostRecent=true" in
  fst (GetMETAR (Decoder.server 404 Decoder.canned) Decoder.Unmarshal q [])
  = Returns None (Some (errors_New "unexpected status code: 404"))
  /\ snd (GetMETAR (Decoder.server 404 Decoder.canned) Decoder.Unmarshal q [])
     = [EvGet url].
Proof.
  intros q url.
  apply (proj2 (GetMETAR_unexpected_status
                  (Decoder.server 404 Decoder.canned) Decoder.Unmarshal
                  q url [] eq_refl)
           (Build_Response 404 (Build_ReadCloser Decoder.canned None))).
  - reflexivity.
  - right. vm_compute. reflexivity.
Defined.

Lemma GetMETAR_returns_embedded_errors_witness :
  exists response,
    fst (GetMETAR (Decoder.server 200 Decoder.canned) Decoder.Unmarshal
           (HoursBeforeNow (of_Z 1) (Station "EDDF" new_METARQuery)) [])
    = Returns (Some response) None
    /\ List.length (Errors response) = 1%nat
    /\ List.length (Warnings response) = 1%nat
    /\ List.length (METARs response) = 1%nat.
Proof.
  assert (Hcode : 200 <= 200 <= 299) by lia.
  assert (Hdec : Decoder.Unmarshal Decoder.canned new_METARResponse
                 = (fst (Decoder.Unmarshal Decoder.canned new_METARResponse),
                    None))
    by (vm_compute; reflexivity).
  apply (proj2 (GetMETAR_returns_embedded_errors
           (Decoder.server 200 Decoder.canned) Decoder.Unmarshal
           (HoursBeforeNow (of_Z 1) (Station "EDDF" new_METARQuery))
           (endpointMETAR ++ "&stationString=EDDF&hoursBeforeNow=1.000000")
           (Build_Response 200 (Build_ReadCloser Decoder.canned None))
           Decoder.canned
           (fst (Decoder.Unmarshal Decoder.canned new_METARResponse))
           [] eq_refl eq_refl Hcode eq_refl Hdec));
    vm_compute; reflexivity.
Defined.

Lemma GetMETAR_decode_error_witness :
  let body :=
    "<response><errors><error>E</error></errors><data><METAR>"
    ++ "<temp_c>warm</temp_c></METAR></data></response>" in
  Errors (fst (Decoder.Unmarshal body new_METARResponse)) = ["E"]
  /\ fst (GetMETAR (Decoder.server 200 body) Decoder.Unmarshal
            (HoursBeforeNow (of_Z 1) new_METARQuery) [])
     = Returns None (Some (fromLibrary (Decoder.BadValue "warm"))).
Proof.
  intros body. split; [vm_compute; reflexivity|].
  apply (GetMETAR_decode_error
           (Decoder.server 200 body) Decoder.Unmarshal
           (HoursBeforeNow (of_Z 1) new_METARQuery)
           (endpointMETAR ++ "&hoursBeforeNow=1.000000")
           (Build_Response 200 (Build_ReadCloser body None))
           body
           (fst (Decoder.Unmarshal body new_METARResponse))).
  - reflexivity.
  - reflexivity.
  - simpl. lia.
  - reflexivity.
  - vm_compute. reflexivity.
Defined.

(** * Further properties *)

(** ** More on the comparisons *)

Lemma compare_cont_Eq (p q : positive) :
  Pos.compare_cont Eq p q = (p ?= q)%positive.
Proof. reflexivity. Qed.

Ltac compare_cases :=
  repeat match goal with
  | H : context [Z.compare ?x ?y] |- _ =>
      destruct (Z.compare_spec x y); try subst
  | H : context [Pos.compare ?x ?y] |- _ =>
      destruct (Pos.compare_spec x y); try subst
  | |- context [Z.compare ?x ?y] =>
      destruct (Z.compare_spec x y); try subst
  | |- context [Pos.compare ?x ?y] =>
      destruct (Pos.compare_spec x y); try subst
  end.

Lemma float_le_trans (a b c : float32) :
  Float32.le a b = true -> Float32.le b c = true -> Float32.le a c = true.
Proof.
  unfold Float32.le, SFleb, SFcompare.
  destruct a as [[]|[]| |[] ma ea], b as [[]|[]| |[] mb eb],
    c as [[]|[]| |[] mc ec];
    try discriminate; try reflexivity;
    change PosDef.Pos.compare_cont with Pos.compare_cont;
    intros H1 H2; rewrite ?compare_cont_Eq in *; compare_cases; simpl in *;
    try discriminate; try reflexivity; try lia.
Qed.

Lemma float_ge_le (x y : float32) :
  Float32.ge x y = true <-> Float32.le y x = true.
Proof.
  unfold Float32.ge, Float32.le, SFleb. split; intros H.
  - destruct (SFcompare x y) as [c|] eqn:E; [|discriminate].
    rewrite (SFcompare_antisym x y c E). destruct c; simpl; congruence.
  - destruct (SFcompare y x) as [c|] eqn:E; [|discriminate].
    rewrite (SFcompare_antisym y x c E). destruct c; simpl; congruence.
Qed.

(** Two floats that compare equal are the same float, unless they are
    zeros. *)
Lemma SFcompare_Eq_finite (x y : float32) :
  isFinite y = true -> SFcompare x y = Some Eq -> x = y.
Proof.
  intros Hy H.
  destruct y as [sy|sy| |sy my ey]; try discriminate Hy.
  destruct x as [sx|sx| |sx mx ex]; simpl in H;
    try discriminate H; try (destruct sx; discriminate H);
    try (destruct sy; discriminate H).
  destruct (PosDef.Pos.compare_cont Eq mx my) eqn:E;
    destruct sx, sy; try discriminate H;
    destruct (Z.compare_spec ex ey); try discriminate H;
    apply Pcompare_Eq_eq in E; subst; reflexivity.
Qed.

Lemma float_le_antisym_finite (x y : float32) :
  isFinite y = true ->
  Float32.le x y = true -> Float32.le y x = true -> x = y.
Proof.
  intros Hy H1 H2. apply SFcompare_Eq_finite; [exact Hy|].
  unfold Float32.le, SFleb in *.
  destruct (SFcompare x y) as [c|] eqn:E; [|discriminate].
  rewrite (SFcompare_antisym x y c E) in H2.
  destruct c; simpl in *; congruence.
Qed.

Lemma keepFloatInRange_mono (lo hi v w : float32) :
  Float32.le lo hi = true -> Float32.le v w = true ->
  Float32.le (keepFloatInRange v lo hi) (keepFloatInRange w lo hi) = true.
Proof.
  intros Hlh Hvw.
  destruct (float_le_not_nan _ _ Hlh) as [Hlo Hhi].
  destruct (float_le_not_nan _ _ Hvw) as [Hv Hw].
  pose proof (keepFloatInRange_within w lo hi Hlh Hw) as [Wlo Whi].
  unfold keepFloatInRange at 1.
  destruct (Float32.le v lo) eqn:E1; [exact Wlo|].
  assert (E1w : Float32.le w lo = false).
  { destruct (Float32.le w lo) eqn:E; [|reflexivity].
    rewrite (float_le_trans v w lo Hvw E) in E1. discriminate. }
  destruct (Float32.ge v hi) eqn:E2.
  - assert (E2w : Float32.ge w hi = true).
    { apply float_ge_le. apply float_ge_le in E2.
      exact (float_le_trans hi v w E2 Hvw). }
    unfold keepFloatInRange. rewrite E1w, E2w.
    apply float_le_refl, Hhi.
  - unfold keepFloatInRange. rewrite E1w.
    destruct (Float32.ge w hi) eqn:E2w.
    + apply float_not_ge_le; assumption.
    + exact Hvw.
Qed.

Lemma keepFloatInRange_fixes (lo hi v : float32) :
  isFinite lo = true -> isFinite hi = true ->
  within lo hi v -> keepFloatInRange v lo hi = v.
Proof.
  intros Flo Fhi [H1 H2]. unfold keepFloatInRange.
  destruct (Float32.le v lo) eqn:E1.
  - symmetry. exact (float_le_antisym_finite v lo Flo E1 H1).
  - destruct (Float32.ge v hi) eqn:E2; [|reflexivity].
    apply float_ge_le in E2.
    symmetry. exact (float_le_antisym_finite v hi Fhi H2 E2).
Qed.

(** ** [keepFloatInRange] and the stored values *)

(** X1.  Clamping twice is clamping once, for every value (a NaN
    included), when the lower bound is not positive and the upper
    bound is positive, as in every call of the package. *)
Theorem keepFloatInRange_idempotent (lo hi v : float32) :
  notPositive lo = true -> isPositive hi = true ->
  keepFloatInRange (keepFloatInRange v lo hi) lo hi
  = keepFloatInRange v lo hi.
Proof.
  intros Hlo Hhi.
  pose proof (bounds_ordered lo hi Hlo Hhi) as Hlh.
  destruct (float_le_not_nan _ _ Hlh) as [Nlo Nhi].
  unfold keepFloatInRange at 2 3.
  destruct (Float32.le v lo) eqn:E1.
  - apply keepFloatInRange_below, float_le_refl, Nlo.
  - destruct (Float32.ge v hi) eqn:E2.
    + apply keepFloatInRange_above.
      * destruct (Float32.le hi lo) eqn:E; [|reflexivity].
        exfalso. apply (below_above_disjoint lo hi hi Hlo Hhi E).
        apply float_ge_le, float_le_refl, Nhi.
      * apply float_ge_le, float_le_refl, Nhi.
    + apply keepFloatInRange_inside; assumption.
Qed.

Lemma keepFloatInRange_idempotent_witness :
  keepFloatInRange (keepFloatInRange (of_Z 700) (of_Z 0) (of_Z 500))
    (of_Z 0) (of_Z 500)
  = keepFloatInRange (of_Z 700) (of_Z 0) (of_Z 500).
Proof.
  apply (keepFloatInRange_idempotent (of_Z 0) (of_Z 500) (of_Z 700));
    reflexivity.
Defined.

(** X2.  With bounds that are numbers, the result of the clamp is a NaN
    exactly when the value is one: no number is turned into a NaN and a
    NaN is never replaced by a bound. *)
Theorem keepFloatInRange_nan_iff (lo hi v : float32) :
  is_nan lo = false -> is_nan hi = false ->
  is_nan (keepFloatInRange v lo hi) = is_nan v.
Proof.
  intros Hlo Hhi. unfold keepFloatInRange.
  destruct (Float32.le v lo) eqn:E1.
  - rewrite Hlo. symmetry. apply (float_le_not_nan _ _ E1).
  - destruct (Float32.ge v hi) eqn:E2; [|reflexivity].
    rewrite Hhi. symmetry. apply float_ge_le in E2.
    apply (float_le_not_nan _ _ E2).
Qed.

Lemma keepFloatInRange_nan_iff_witness :
  is_nan (keepFloatInRange NaN (of_Z (-90)) (of_Z 90)) = true
  /\ is_nan (keepFloatInRange (of_Z 91) (of_Z (-90)) (of_Z 90)) = false.
Proof.
  split.
  - apply (keepFloatInRange_nan_iff (of_Z (-90)) (of_Z 90) NaN);
      reflexivity.
  - apply (keepFloatInRange_nan_iff (of_Z (-90)) (of_Z 90) (of_Z 91));
      reflexivity.
Defined.

(** X3.  Coordinates that already lie in their ranges are stored as
    they are: [InRectangle] keeps latitudes in [[-90, 90]] and
    longitudes in [[-180, 180]] unchanged. *)
Theorem InRectangle_keeps_valid_coordinates
  (minLat minLon maxLat maxLon : float32) (query : METARQuery) :
  within (of_Z (-90)) (of_Z 90) minLat ->
  within (of_Z (-180)) (of_Z 180) minLon ->
  within (of_Z (-90)) (of_Z 90) maxLat ->
  within (of_Z (-180)) (of_Z 180) maxLon ->
  let q := InRectangle minLat minLon maxLat maxLon query in
  rectMinLat q = Some minLat /\ rectMinLon q = Some minLon
  /\ rectMaxLat q = Some maxLat /\ rectMaxLon q = Some maxLon.
Proof.
  intros H1 H2 H3 H4. simpl.
  rewrite !keepFloatInRange_fixes by first [reflexivity | assumption].
  repeat split; reflexivity.
Qed.

Lemma InRectangle_keeps_valid_coordinates_witness :
  let q := InRectangle (of_Z 40) (of_Z (-180)) (of_Z 90) (of_Z 15)
             new_METARQuery in
  rectMinLat q = Some (of_Z 40) /\ rectMinLon q = Some (of_Z (-180))
  /\ rectMaxLat q = Some (of_Z 90) /\ rectMaxLon q = Some (of_Z 15).
Proof.
  apply (InRectangle_keeps_valid_coordinates
           (of_Z 40) (of_Z (-180)) (of_Z 90) (of_Z 15) new_METARQuery);
    split; reflexivity.
Defined.

(** X4.  A centre in range and a radius above zero and at most 500 are
    stored as they are by [RadialDistance]. *)
Theorem RadialDistance_keeps_valid_arguments
  (radius lat lon : float32) (query : METARQuery) :
  float_lt (of_Z 0) radius = true ->
  Float32.le radius (of_Z 500) = true ->
  within (of_Z (-90)) (of_Z 90) lat ->
  within (of_Z (-180)) (of_Z 180) lon ->
  let q := RadialDistance radius lat lon query in
  radRadius q = Some radius /\ radLat q = Some lat /\ radLon q = Some lon.
Proof.
  intros H0 H500 Hlat Hlon q. unfold q, RadialDistance.
  cbn [radRadius radLat radLon].
  rewrite !(keepFloatInRange_fixes _ _ lat),
    !(keepFloatInRange_fixes _ _ lon) by first [reflexivity | assumption].
  assert (E : keepFloatInRange radius (of_Z 0) (of_Z 500) = radius).
  { unfold keepFloatInRange.
    assert (E1 : Float32.le radius (of_Z 0) = false).
    { revert H0. unfold float_lt, Float32.le, SFltb, SFleb.
      destruct (SFcompare (of_Z 0) radius) as [c|] eqn:E; [|discriminate].
      rewrite <- (CompOpp_involutive c) in E.
      apply SFcompare_antisym in E. rewrite CompOpp_involutive in E.
      rewrite E. destruct c; simpl; congruence. }
    rewrite E1.
    destruct (Float32.ge radius (of_Z 500)) eqn:E2; [|reflexivity].
    apply float_ge_le in E2. symmetry.
    apply float_le_antisym_finite; first [reflexivity | assumption]. }
  rewrite E.
  assert (Z : Float32.eq radius (of_Z 0) = false).
  { revert H0. unfold float_lt, Float32.eq, SFltb, SFeqb.
    destruct (SFcompare (of_Z 0) radius) as [c|] eqn:E0; [|discriminate].
    rewrite <- (CompOpp_involutive c) in E0.
    apply SFcompare_antisym in E0. rewrite CompOpp_involutive in E0.
    rewrite E0. destruct c; simpl; congruence. }
  rewrite Z. repeat split; reflexivity.
Qed.

Lemma RadialDistance_keeps_valid_arguments_witness :
  let q := RadialDistance (of_Z 500) (of_Z (-90)) (of_Z 7) new_METARQuery in
  radRadius q = Some (of_Z 500) /\ radLat q = Some (of_Z (-90))
  /\ radLon q = Some (of_Z 7).
Proof.
  apply (RadialDistance_keeps_valid_arguments
           (of_Z 500) (of_Z (-90)) (of_Z 7) new_METARQuery);
    try split; reflexivity.
Defined.

(** X5.  [InRectangle] keeps the orientation of a rectangle: when the
    minimum passed is at most the maximum passed, so are the values
    stored, for the latitudes and for the longitudes. *)
Theorem InRectangle_keeps_orientation
  (minLat minLon maxLat maxLon : float32) (query : METARQuery) :
  let q := InRectangle minLat minLon maxLat maxLon query in
  (Float32.le minLat maxLat = true ->
   exists a c, rectMinLat q = Some a /\ rectMaxLat q = Some c
               /\ Float32.le a c = true)
  /\ (Float32.le minLon maxLon = true ->
      exists b d, rectMinLon q = Some b /\ rectMaxLon q = Some d
                  /\ Float32.le b d = true).
Proof.
  simpl. split; intros H; eexists; eexists;
    (split; [reflexivity|]); (split; [reflexivity|]);
    apply keepFloatInRange_mono; first [reflexivity | exact H].
Qed.

Lemma InRectangle_keeps_orientation_witness :
  let q := InRectangle (of_Z (-100)) (of_Z 170) (of_Z 95) (of_Z 400)
             new_METARQuery in
  (exists a c, rectMinLat q = Some a /\ rectMaxLat q = Some c
               /\ Float32.le a c = true)
  /\ (exists b d, rectMinLon q = Some b /\ rectMaxLon q = Some d
                  /\ Float32.le b d = true).
Proof.
  intros q.
  destruct (InRectangle_keeps_orientation
              (of_Z (-100)) (of_Z 170) (of_Z 95) (of_Z 400) new_METARQuery)
    as [H1 H2].
  split; [apply H1 | apply H2]; reflexivity.
Defined.

(** ** Ranges of the stored values *)

Lemma inRangeOrNaN_None (lo hi : float32) : inRangeOrNaN lo hi None.
Proof. intros r H. discriminate H. Qed.

Lemma inRangeOrNaN_keep (lo hi v : float32) :
  Float32.le lo hi = true ->
  inRangeOrNaN lo hi (Some (keepFloatInRange v lo hi)).
Proof.
  intros Hlh r [= <-]. destruct (is_nan v) eqn:E.
  - left. destruct v; try discriminate E. now rewrite keepFloatInRange_nan.
  - right. now apply keepFloatInRange_within.
Qed.

Lemma radiusOrNaN_stored (radius : float32) :
  let c := keepFloatInRange radius (of_Z 0) (of_Z 500) in
  radiusOrNaN (Some (if Float32.eq c (of_Z 0) then of_Z 1 else c)).
Proof.
  intros c r H. destruct (is_nan radius) eqn:E.
  - left. destruct radius; try discriminate E.
    injection H as <-. reflexivity.
  - right.
    destruct (keepFloatInRange_within radius (of_Z 0) (of_Z 500) eq_refl E)
      as [H0 H500].
    fold c in H0, H500.
    destruct (Float32.eq c (of_Z 0)) eqn:Z; injection H as <-;
      [split; reflexivity|].
    split; [|exact H500].
    revert H0 Z. unfold float_lt, Float32.le, Float32.eq, SFltb, SFleb, SFeqb.
    destruct (SFcompare (of_Z 0) c) as [k|] eqn:K; [|discriminate].
    rewrite (SFcompare_antisym _ _ _ K).
    destruct k; simpl; congruence.
Qed.

Lemma notNegativeOrNaN_abs (v : float32) :
  notNegativeOrNaN (Some (Float32.abs v)).
Proof.
  intros r [= <-]. destruct v as [s|s| |s m e]; simpl; auto.
Qed.

(** X6.  In every query reached by setter calls, a stored latitude lies
    in [[-90, 90]], a stored longitude in [[-180, 180]], a stored radius
    is above zero and at most 500, and the stored number of hours is
    not negative, unless the stored value is a NaN. *)
Theorem reachable_rangesKept (q : METARQuery) :
  reachable q -> rangesKept q.
Proof.
  induction 1 as [|c q _ IH].
  - unfold rangesKept, notNegativeOrNaN, radiusOrNaN.
    repeat split; try apply inRangeOrNaN_None; intros r H; discriminate H.
  - destruct IH as (I1 & I2 & I3 & I4 & I5 & I6 & I7 & I8).
    unfold rangesKept.
    destruct c; cbn [call Station Between HoursBeforeNow MostRecent
                       MostRecentForEachStation InRectangle RadialDistance
                       Fields hoursBeforeNow rectMinLat rectMinLon
                       rectMaxLat rectMaxLon radRadius radLat radLon];
      repeat split; try assumption;
      try apply inRangeOrNaN_None;
      try (apply inRangeOrNaN_keep; reflexivity);
      try apply radiusOrNaN_stored;
      try apply notNegativeOrNaN_abs;
      intros r H; discriminate H.
Qed.

Lemma reachable_rangesKept_witness :
  rangesKept
    (call (CallRadialDistance (of_Z 900) NaN (of_Z (-200)))
       (call (CallHoursBeforeNow (of_Z (-3))) new_METARQuery)).
Proof.
  apply reachable_rangesKept.
  repeat apply reachable_call. apply reachable_new.
Defined.

(** ** The blocks of [buildEndpoint] *)

Lemma prefix_append (a b : string) : String.prefix a (a ++ b) = true.
Proof.
  induction a as [|x a IH]; simpl.
  - destruct b; reflexivity.
  - destruct (ascii_dec x x) as [_|N]; [exact IH | now elim N].
Qed.

Lemma block_string (o : option string) (e : endpoint) (k : string) :
  match o with Some v => addString e k v | None => e end
  = e ++ match o with Some v => "&" ++ k ++ "=" ++ v | None => "" end.
Proof. destruct o; [reflexivity | now rewrite append_empty]. Qed.

Lemma block_float (o : option float32) (e : endpoint) (k : string) :
  match o with Some v => addFloat e k v | None => e end
  = e ++ match o with Some v => "&" ++ k ++ "=" ++ Fmt.f v | None => "" end.
Proof. destruct o; [reflexivity | now rewrite append_empty]. Qed.

Lemma block_bool (o : option bool) (e : endpoint) (k : string) :
  match o with Some v => addBool e k v | None => e end
  = e ++ match o with Some v => "&" ++ k ++ "=" ++ Fmt.t v | None => "" end.
Proof. destruct o; [reflexivity | now rewrite append_empty]. Qed.

Lemma block_fields (l : list string) (e : endpoint) :
  match l with
  | [] => e
  | _ :: _ => addString e "fields" (strings.Join l ",")
  end = e ++ fieldsSegment l.
Proof. destruct l; [now rewrite append_empty | reflexivity]. Qed.

Lemma buildEndpoint_blocks (q : METARQuery) :
  buildEndpoint q
  = if dereferencesNil q then None else Some (endpointMETAR ++ segments q).
Proof.
  unfold buildEndpoint, dereferencesNil, segments, stationSegment,
    timeSegment, hoursSegment, recentSegment, recentEachSegment,
    rectangleSegment, radialSegment.
  generalize endpointMETAR. intros base. cbv zeta.
  rewrite !block_string.
  destruct (startTime q) as [s|]; [destruct (endTime q) as [e|]|];
    try reflexivity; cbv beta iota;
    rewrite !block_float, !block_bool, !block_string;
    (destruct (rectMinLat q) as [a|];
     [destruct (rectMinLon q) as [b|]; try reflexivity;
      destruct (rectMaxLat q) as [c|]; try reflexivity;
      destruct (rectMaxLon q) as [d|]; try reflexivity|]);
    (destruct (radRadius q) as [r|];
     [destruct (radLon q) as [lo|]; try reflexivity;
      destruct (radLat q) as [la|]; try reflexivity|]);
    cbn [isSome negb andb orb]; cbv beta iota;
    rewrite block_fields;
    unfold addString, addInt, addFloat; f_equal;
    rewrite ?append_assoc; reflexivity.
Qed.

(** X7.  [buildEndpoint] dereferences a [nil] pointer exactly when a
    tested pointer is set and a sibling it does not test is [nil]:
    [startTime] without [endTime], [rectMinLat] without one of the
    three other corners, [radRadius] without [radLon] or [radLat].
    The converse gaps are harmless: an [endTime] without [startTime],
    for one, is ignored. *)
Theorem buildEndpoint_panics_iff (q : METARQuery) :
  buildEndpoint q = None <-> dereferencesNil q = true.
Proof.
  rewrite buildEndpoint_blocks.
  destruct (dereferencesNil q); split; intros H;
    first [reflexivity | discriminate H].
Qed.

(** X8.  When it returns, [buildEndpoint] returns the base URL followed
    by the segments of the constraints in a fixed order, whatever the
    order of the setter calls was: station, time window, hours before
    now, most recent, most recent for each station, rectangle, radial
    filter, fields.  An unset constraint adds nothing. *)
Theorem buildEndpoint_fixed_order (q : METARQuery) (url : endpoint) :
  buildEndpoint q = Some url ->
  url = endpointMETAR ++ stationSegment q ++ timeSegment q
          ++ hoursSegment q ++ recentSegment q ++ recentEachSegment q
          ++ rectangleSegment q ++ radialSegment q
          ++ fieldsSegment (fields q)
  /\ String.prefix endpointMETAR url = true.
Proof.
  rewrite buildEndpoint_blocks.
  destruct (dereferencesNil q); [discriminate|].
  intros [= <-]. split; [reflexivity|].
  exact (prefix_append endpointMETAR (segments q)).
Qed.

Lemma buildEndpoint_fixed_order_witness :
  let q1 := Fields ["raw_text"]
              (MostRecent true (Between {| time.Unix := 10 |}
                                  {| time.Unix := 20 |}
                                  (Station "EDDF" new_METARQuery))) in
  let q2 := Station "EDDF"
              (Between {| time.Unix := 10 |} {| time.Unix := 20 |}
                 (MostRecent true (Fields ["raw_text"] new_METARQuery))) in
  let url := endpointMETAR
             ++ "&stationString=EDDF&startTime=10&endTime=20"
             ++ "&mostRecent=true&fields=raw_text" in
  (url = endpointMETAR ++ segments q1
   /\ String.prefix endpointMETAR url = true)
  /\ url = endpointMETAR ++ segments q2.
Proof.
  intros q1 q2 url. split.
  - apply (buildEndpoint_fixed_order q1 url). reflexivity.
  - apply (buildEndpoint_fixed_order q2 url). reflexivity.
Defined.

(** X9.  In the URL of a query reached by setter calls, the two
    segments of a group never appear together: not a time window with
    hours before now, not [mostRecent] with [mostRecentForEachStation],
    not a rectangle with a radial filter. *)
Theorem reachable_url_one_segment_per_group (q : METARQuery) :
  reachable q ->
  buildEndpoint q = Some (endpointMETAR ++ segments q)
  /\ (timeSegment q = "" \/ hoursSegment q = "")
  /\ (recentSegment q = "" \/ recentEachSegment q = "")
  /\ (rectangleSegment q = "" \/ radialSegment q = "").
Proof.
  intros H. split.
  - rewrite buildEndpoint_blocks.
    destruct (reachable_buildEndpoint q H) as [url Hurl].
    rewrite buildEndpoint_blocks in Hurl.
    destruct (dereferencesNil q); [discriminate Hurl | reflexivity].
  - pose proof (reachable_exclusive q H) as E.
    unfold exclusive, timeWindowSet, rectangleSet, radialSet in E.
    unfold timeSegment, hoursSegment, recentSegment, recentEachSegment,
      rectangleSegment, radialSegment.
    repeat (apply andb_prop in E; destruct E as [E ?]).
    repeat split.
    + destruct (hoursBeforeNow q); [|now right].
      destruct (startTime q); [discriminate|]. now left.
    + destruct (mostRecent q); [|now left].
      destruct (mostRecentForEachStation q); [discriminate|]. now right.
    + destruct (radRadius q) as [r|]; [|now right].
      destruct (rectMinLat q); [discriminate|]. now left.
Qed.

Lemma reachable_url_one_segment_per_group_witness :
  let q := call (CallRadialDistance (of_Z 20) (of_Z 45) (of_Z 10))
             (call (CallInRectangle (of_Z 40) (of_Z 5) (of_Z 50) (of_Z 15))
                (call (CallHoursBeforeNow (of_Z 2))
                   (call (CallBetween {| time.Unix := 10 |}
                            {| time.Unix := 20 |}) new_METARQuery))) in
  buildEndpoint q
  = Some (endpointMETAR ++ "&hoursBeforeNow=2.000000"
          ++ "&radialDistance=20.000000;10.000000,45.000000")
  /\ timeSegment q = "" /\ rectangleSegment q = "".
Proof.
  intros q.
  destruct (reachable_url_one_segment_per_group q) as (H & _).
  - repeat apply reachable_call. apply reachable_new.
  - split; [rewrite H; reflexivity | split; reflexivity].
Defined.

(** ** How the setters compose *)

Lemma call_same_group (c c' : Setter) (q : METARQuery) :
  group c = group c' -> call c (call c' q) = call c q.
Proof. destruct c, c'; intros G; try discriminate G; reflexivity. Qed.

Lemma call_other_group (c c' : Setter) (q : METARQuery) :
  group c <> group c' -> call c (call c' q) = call c' (call c q).
Proof.
  destruct c, c'; intros G; try reflexivity; now elim G.
Qed.

Lemma Group_eq_dec (g g' : Group) : {g = g'} + {g <> g'}.
Proof. decide equality. Qed.

Lemma run_app (l l' : list Setter) (q : METARQuery) :
  run (l ++ l') q = run l' (run l q).
Proof. unfold run. apply fold_left_app. Qed.

Lemma run_shadowed (c c' : Setter) (l : list Setter) (q : METARQuery) :
  group c' = group c ->
  run (c' :: l ++ [c]) q = run (l ++ [c]) q.
Proof.
  intros G. revert q. induction l as [|d l IH]; intros q.
  - simpl. apply call_same_group. now symmetry.
  - destruct (Group_eq_dec (group d) (group c')) as [E|N].
    + change (run (c' :: (d :: l) ++ [c]) q)
        with (run (l ++ [c]) (call d (call c' q))).
      now rewrite (call_same_group d c' q E).
    + change (run (c' :: (d :: l) ++ [c]) q)
        with (run (l ++ [c]) (call d (call c' q))).
      rewrite (call_other_group d c' q N).
      change (run (l ++ [c]) (call c' (call d q)))
        with (run (c' :: l ++ [c]) (call d q)).
      rewrite IH. reflexivity.
Qed.

(** X10.  Within a group the last call wins and leaves nothing of the
    call before it: a setter applied after a setter of the same group
    gives the query that it gives alone.  In particular every setter is
    idempotent, and [Between] after [HoursBeforeNow], [MostRecent]
    after [MostRecentForEachStation] or [InRectangle] after
    [RadialDistance] erase the earlier call. *)
Theorem setter_overrides_its_group (c c' : Setter) (q : METARQuery) :
  group c = group c' -> call c (call c' q) = call c q.
Proof. apply call_same_group. Qed.

Lemma setter_overrides_its_group_witness :
  Between {| time.Unix := 10 |} {| time.Unix := 20 |}
    (HoursBeforeNow (of_Z 3) (Station "EDDF" new_METARQuery))
  = Between {| time.Unix := 10 |} {| time.Unix := 20 |}
      (Station "EDDF" new_METARQuery).
Proof.
  apply (setter_overrides_its_group
           (CallBetween {| time.Unix := 10 |} {| time.Unix := 20 |})
           (CallHoursBeforeNow (of_Z 3))).
  reflexivity.
Defined.

(** X11.  Setters of different groups commute: the query does not
    depend on the order in which constraints of different groups are
    set. *)
Theorem setters_of_different_groups_commute
  (c c' : Setter) (q : METARQuery) :
  group c <> group c' -> call c (call c' q) = call c' (call c q).
Proof. apply call_other_group. Qed.

Lemma setters_of_different_groups_commute_witness :
  Station "EDDF" (RadialDistance (of_Z 20) (of_Z 45) (of_Z 10) new_METARQuery)
  = RadialDistance (of_Z 20) (of_Z 45) (of_Z 10)
      (Station "EDDF" new_METARQuery).
Proof.
  apply (setters_of_different_groups_commute
           (CallStation "EDDF")
           (CallRadialDistance (of_Z 20) (of_Z 45) (of_Z 10))).
  discriminate.
Defined.

(** X12.  In a sequence of setter calls, a call that is followed, at
    any distance, by a call of the same group can be left out: the
    query at the end is the same. *)
Theorem earlier_call_of_group_is_dead
  (before between after : list Setter) (c c' : Setter) (q : METARQuery) :
  group c' = group c ->
  run (before ++ c' :: between ++ c :: after) q
  = run (before ++ between ++ c :: after) q.
Proof.
  intros G.
  assert (E1 : (c' :: between ++ c :: after
                = (c' :: between ++ [c]) ++ after)%list)
    by (simpl; rewrite <- app_assoc; reflexivity).
  assert (E2 : (between ++ c :: after = (between ++ [c]) ++ after)%list)
    by (rewrite <- app_assoc; reflexivity).
  rewrite (run_app before), (run_app before), E1, E2.
  rewrite (run_app (c' :: between ++ [c]) after).
  rewrite (run_app (between ++ [c]) after).
  rewrite (run_shadowed c c' between _ G). reflexivity.
Qed.

Lemma earlier_call_of_group_is_dead_witness :
  run [CallStation "EDDF"; CallHoursBeforeNow (of_Z 3); CallMostRecent true;
       CallBetween {| time.Unix := 10 |} {| time.Unix := 20 |};
       CallFields ["raw_text"]] new_METARQuery
  = run [CallStation "EDDF"; CallMostRecent true;
         CallBetween {| time.Unix := 10 |} {| time.Unix := 20 |};
         CallFields ["raw_text"]] new_METARQuery.
Proof.
  apply (earlier_call_of_group_is_dead
           [CallStation "EDDF"] [CallMostRecent true]
           [CallFields ["raw_text"]]
           (CallBetween {| time.Unix := 10 |} {| time.Unix := 20 |})
           (CallHoursBeforeNow (of_Z 3))).
  reflexivity.
Defined.

(** ** What the rendering of values allows *)

Lemma micro_nonneg (m : positive) (e : Z) : 0 <= Fmt.micro m e.
Proof.
  unfold Fmt.micro. destruct (0 <=? e) eqn:E.
  - apply Z.leb_le in E.
    pose proof (Z.pow_nonneg 2 e ltac:(lia)). nia.
  - apply Z.leb_gt in E. unfold Fmt.round_half_even.
    assert (D : 0 < 2 ^ (- e)) by (apply Z.pow_pos_nonneg; lia).
    assert (Q : 0 <= Z.pos m * 1000000 / 2 ^ (- e))
      by (apply Z.div_pos; lia).
    destruct (2 * ((Z.pos m * 1000000) mod 2 ^ (- e)) ?= 2 ^ (- e));
      [destruct (Z.even _)| |]; lia.
Qed.

Lemma d_firstChar (n : Z) :
  0 <= n -> firstChar (Fmt.d n) <> Some "-"%char.
Proof.
  intros H. unfold Fmt.d.
  destruct n as [|p|p]; [| |lia]; simpl.
  - discriminate.
  - destruct (Pos.to_uint p); simpl; discriminate.
Qed.

Lemma firstChar_append (a b : string) (c : ascii) :
  firstChar a <> None -> firstChar a <> Some c ->
  firstChar (a ++ b) <> Some c.
Proof. destruct a; simpl; [congruence | auto]. Qed.

Lemma d_not_empty (n : Z) : 0 <= n -> firstChar (Fmt.d n) <> None.
Proof.
  intros H. unfold Fmt.d.
  destruct n as [|p|p]; [| |lia]; simpl.
  - discriminate.
  - destruct (Pos.to_uint p); simpl; discriminate.
Qed.

(** X13.  The number of hours is never rendered with a minus sign:
    whatever float [HoursBeforeNow] is given, the value of the
    [hoursBeforeNow] parameter does not begin with [-]. *)
Theorem hours_rendered_without_minus (h : float32) (q : METARQuery) :
  exists text,
    hoursSegment (HoursBeforeNow h q) = "&hoursBeforeNow=" ++ text
    /\ text = Fmt.f (Float32.abs h)
    /\ firstChar text <> Some "-"%char.
Proof.
  exists (Fmt.f (Float32.abs h)).
  split; [reflexivity|]. split; [reflexivity|].
  destruct h as [s|s| |s m e]; simpl; try discriminate.
  unfold Fmt.fixed6.
  pose proof (micro_nonneg m e) as M.
  assert (Q : 0 <= Fmt.micro m e / 1000000) by (apply Z.div_pos; lia).
  apply firstChar_append; [apply d_not_empty | apply d_firstChar];
    exact Q.
Qed.

(** X14.  String values are written into the URL as they are, without
    escaping; a station string can therefore carry a parameter of its
    own.  On a query without time and recency constraints,
    [Station(s + "&mostRecent=" + b)] renders exactly the URL of
    [Station(s)] followed by [MostRecent(b)]: different queries, one
    URL. *)
Theorem station_string_is_not_escaped
  (s : string) (b : bool) (q : METARQuery) (url : endpoint) :
  startTime q = None -> hoursBeforeNow q = None ->
  mostRecent q = None -> mostRecentForEachStation q = None ->
  buildEndpoint (MostRecent b (Station s q)) = Some url ->
  buildEndpoint (Station (s ++ "&mostRecent=" ++ Fmt.t b) q) = Some url
  /\ Station (s ++ "&mostRecent=" ++ Fmt.t b) q <> MostRecent b (Station s q).
Proof.
  intros H1 H2 H3 H4 Hurl. split.
  - rewrite buildEndpoint_blocks in *.
    unfold dereferencesNil, segments, stationSegment, timeSegment,
      hoursSegment, recentSegment, recentEachSegment in *.
    cbn [MostRecent Station station startTime endTime hoursBeforeNow
           mostRecent mostRecentForEachStation rectMinLat rectMinLon
           rectMaxLat rectMaxLon radRadius radLat radLon fields] in *.
    rewrite H1, H2, H3, H4 in *.
    match goal with
    | H : (if ?c then _ else _) = _ |- _ => destruct c
    end; [discriminate Hurl|].
    injection Hurl as <-. f_equal. f_equal.
    cbn [append]. rewrite !append_assoc. reflexivity.
  - intros E. apply (f_equal mostRecent) in E. simpl in E.
    rewrite H3 in E. discriminate E.
Qed.

Lemma station_string_is_not_escaped_witness :
  buildEndpoint (Station "EDDF&mostRecent=true" new_METARQuery)
  = buildEndpoint (MostRecent true (Station "EDDF" new_METARQuery)).
Proof.
  destruct (station_string_is_not_escaped "EDDF" true new_METARQuery
              (endpointMETAR ++ "&stationString=EDDF&mostRecent=true")
              eq_refl eq_refl eq_refl eq_refl eq_refl) as [H _].
  exact H.
Defined.

(** ** More on [GetMETAR] *)

Section FetchFurther.

Context {LibError : Type}.
Variable http_Get : string -> Response LibError + LibError.
Variable xml_Unmarshal :
  string -> METARResponse -> METARResponse * option LibError.

Lemma GetMETAR_panics (query : METARQuery) (tr : list Event) :
  buildEndpoint query = None ->
  GetMETAR http_Get xml_Unmarshal query tr = (Panics, tr).
Proof. intros H. unfold GetMETAR, ret. rewrite H. reflexivity. Qed.

Lemma status_cases (code : Z) :
  {code < 200 \/ 299 < code} + {200 <= code <= 299}.
Proof.
  destruct (Z_lt_dec code 200); [left; lia|].
  destruct (Z_lt_dec 299 code); [left; lia | right; lia].
Qed.

(** X15.  The call returns the error of [http.Get] itself, having done
    nothing but that request, exactly when [http.Get] failed. *)
Theorem GetMETAR_transport_error (query : METARQuery) (url : string)
  (err : LibError) (tr : list Event) :
  buildEndpoint query = Some url ->
  (http_Get url = inr err
   <-> GetMETAR http_Get xml_Unmarshal query tr
       = (Returns None (Some (fromLibrary err)), (tr ++ [EvGet url])%list)).
Proof.
  intros Hurl. split.
  - apply GetMETAR_unreachable, Hurl.
  - intros H. destruct (http_Get url) as [resp|err'] eqn:Hget.
    + exfalso. destruct (status_cases (StatusCode resp)) as [C|C].
      * rewrite (GetMETAR_refused _ _ query url resp tr Hurl Hget C) in H.
        discriminate H.
      * rewrite (GetMETAR_accepted _ _ query url resp tr Hurl Hget C) in H.
        destruct (readError (Body resp));
          [|destruct (xml_Unmarshal _ _) as [r [e|]]];
          apply (f_equal snd) in H; simpl in H;
          apply app_inv_head in H; discriminate H.
    + rewrite (GetMETAR_unreachable _ _ query url err' tr Hurl Hget) in H.
      injection H as ->. reflexivity.
Qed.

(** X16.  When the status code lies in [[200, 299]] and reading the
    body fails, the call returns the error of the read and a [nil]
    response; the body is closed and the decoder is not called. *)
Theorem GetMETAR_read_error (query : METARQuery) (url : string)
  (resp : Response LibError) (err : LibError) (tr : list Event) :
  buildEndpoint query = Some url ->
  http_Get url = inl resp ->
  200 <= StatusCode resp <= 299 ->
  readError (Body resp) = Some err ->
  GetMETAR http_Get xml_Unmarshal query tr
  = (Returns None (Some (fromLibrary err)),
     (tr ++ [EvGet url; EvReadAll; EvClose])%list).
Proof.
  intros Hurl Hget Hcode Hread.
  rewrite (GetMETAR_accepted _ _ query url resp tr Hurl Hget Hcode), Hread.
  reflexivity.
Qed.

(** X17.  The body of a response is closed exactly when the status code
    lies in [[200, 299]], and then once, as the last thing the call
    does.  The body of a response with another status code is never
    closed. *)
Theorem GetMETAR_closes_body_iff_accepted (query : METARQuery) (url : string)
  (tr : list Event) :
  buildEndpoint query = Some url ->
  exists t,
    snd (GetMETAR http_Get xml_Unmarshal query tr) = (tr ++ t)%list
    /\ (In EvClose t
        <-> exists resp,
              http_Get url = inl resp /\ 200 <= StatusCode resp <= 299)
    /\ (In EvClose t ->
        exists t', t = (t' ++ [EvClose])%list /\ ~ In EvClose t').
Proof.
  intros Hurl. destruct (http_Get url) as [resp|err] eqn:Hget.
  - destruct (status_cases (StatusCode resp)) as [C|C].
    + rewrite (GetMETAR_refused _ _ query url resp tr Hurl Hget C).
      exists [EvGet url]. split; [reflexivity|]. split.
      * split.
        -- intros [H|[]]. discriminate H.
        -- intros (resp' & [= <-] & C'). lia.
      * intros [H|[]]. discriminate H.
    + rewrite (GetMETAR_accepted _ _ query url resp tr Hurl Hget C).
      destruct (readError (Body resp)).
      * eexists. split; [reflexivity|]. split.
        -- split; [intros _; now exists resp | intros _; simpl; auto].
        -- intros _. exists [EvGet url; EvReadAll].
           split; [reflexivity|].
           intros [H|[H|[]]]; discriminate H.
      * eexists. split; [reflexivity|]. split.
        -- split; [intros _; now exists resp | intros _; simpl; auto].
        -- intros _.
           exists [EvGet url; EvReadAll; EvUnmarshal (content (Body resp))].
           split; [reflexivity|].
           intros [H|[H|[H|[]]]]; discriminate H.
  - rewrite (GetMETAR_unreachable _ _ query url err tr Hurl Hget).
    exists [EvGet url]. split; [reflexivity|]. split.
    + split.
      * intros [H|[]]. discriminate H.
      * intros (resp' & H & _). discriminate H.
    + intros [H|[]]. discriminate H.
Qed.

(** X18.  A call makes one request, to the URL that [buildEndpoint]
    renders, before anything else; when [buildEndpoint] panics no
    request is made; and on a query reached by setter calls the call
    does not panic. *)
Theorem GetMETAR_one_request (query : METARQuery) (tr : list Event) :
  (buildEndpoint query = None ->
   GetMETAR http_Get xml_Unmarshal query tr = (Panics, tr))
  /\ (forall url,
        buildEndpoint query = Some url ->
        exists t,
          fst (GetMETAR http_Get xml_Unmarshal query tr) <> Panics
          /\ snd (GetMETAR http_Get xml_Unmarshal query tr)
             = (tr ++ EvGet url :: t)%list
          /\ forall u, ~ In (EvGet u) t)
  /\ (reachable query ->
      fst (GetMETAR http_Get xml_Unmarshal query tr) <> Panics).
Proof.
  assert (A : forall url,
             buildEndpoint query = Some url ->
             exists t,
               fst (GetMETAR http_Get xml_Unmarshal query tr) <> Panics
               /\ snd (GetMETAR http_Get xml_Unmarshal query tr)
                  = (tr ++ EvGet url :: t)%list
               /\ forall u, ~ In (EvGet u) t).
  { intros url Hurl. destruct (http_Get url) as [resp|err] eqn:Hget.
    - destruct (status_cases (StatusCode resp)) as [C|C].
      + rewrite (GetMETAR_refused _ _ query url resp tr Hurl Hget C).
        exists []. repeat split; [discriminate | intros u []].
      + rewrite (GetMETAR_accepted _ _ query url resp tr Hurl Hget C).
        destruct (readError (Body resp)).
        * exists [EvReadAll; EvClose].
          repeat split; [discriminate|].
          intros u [H|[H|[]]]; discriminate H.
        * exists [EvReadAll; EvUnmarshal (content (Body resp)); EvClose].
          repeat split.
          -- destruct (xml_Unmarshal _ _) as [r [e|]]; discriminate.
          -- intros u [H|[H|[H|[]]]]; discriminate H.
    - rewrite (GetMETAR_unreachable _ _ query url err tr Hurl Hget).
      exists []. repeat split; [discriminate | intros u []]. }
  split; [apply GetMETAR_panics|]. split; [exact A|].
  intros R. destruct (reachable_buildEndpoint query R) as [url Hurl].
  destruct (A url Hurl) as (t & H & _). exact H.
Qed.

(** X19.  Of the two results exactly one is [nil]; and the call returns
    a response exactly when [http.Get] answered with a status code in
    [[200, 299]], the body was read and the decoder accepted it: the
    response returned is the one the decoder filled. *)
Theorem GetMETAR_response_xor_error (query : METARQuery) (tr : list Event) :
  (forall response err,
     fst (GetMETAR http_Get xml_Unmarshal query tr) = Returns response err ->
     (response = None /\ err <> None) \/ (response <> None /\ err = None))
  /\ (forall url r,
        buildEndpoint query = Some url ->
        (fst (GetMETAR http_Get xml_Unmarshal query tr)
         = Returns (Some r) None
         <-> exists resp,
               http_Get url = inl resp
               /\ 200 <= StatusCode resp <= 299
               /\ readError (Body resp) = None
               /\ xml_Unmarshal (content (Body resp)) new_METARResponse
                  = (r, None))).
Proof.
  split.
  - intros response err.
    destruct (buildEndpoint query) as [url|] eqn:Hurl;
      [|rewrite (GetMETAR_panics query tr Hurl); discriminate].
    destruct (http_Get url) as [resp|e] eqn:Hget.
    + destruct (status_cases (StatusCode resp)) as [C|C].
      * rewrite (GetMETAR_refused _ _ query url resp tr Hurl Hget C).
        intros [= <- <-]. left. split; [reflexivity | discriminate].
      * rewrite (GetMETAR_accepted _ _ query url resp tr Hurl Hget C).
        destruct (readError (Body resp));
          [|destruct (xml_Unmarshal _ _) as [r [e|]]];
          intros [= <- <-];
          first [left; split; [reflexivity | discriminate]
                | right; split; [discriminate | reflexivity]].
    + rewrite (GetMETAR_unreachable _ _ query url e tr Hurl Hget).
      intros [= <- <-]. left. split; [reflexivity | discriminate].
  - intros url r Hurl. split.
    + intros H. destruct (http_Get url) as [resp|e] eqn:Hget.
      * destruct (status_cases (StatusCode resp)) as [C|C].
        -- rewrite (GetMETAR_refused _ _ query url resp tr Hurl Hget C) in H.
           discriminate H.
        -- rewrite (GetMETAR_accepted _ _ query url resp tr Hurl Hget C) in H.
           exists resp. split; [reflexivity|]. split; [exact C|].
           destruct (readError (Body resp)); [discriminate H|].
           split; [reflexivity|].
           destruct (xml_Unmarshal _ _) as [r' [e|]]; [discriminate H|].
           injection H as ->. reflexivity.
      * rewrite (GetMETAR_unreachable _ _ query url e tr Hurl Hget) in H.
        discriminate H.
    + intros (resp & Hget & C & Hread & Hdec).
      rewrite (GetMETAR_accepted _ _ query url resp tr Hurl Hget C).
      rewrite Hread, Hdec. reflexivity.
Qed.

End FetchFurther.

Lemma GetMETAR_transport_error_witness :
  GetMETAR (Decoder.unreachable Decoder.NoRootElement) Decoder.Unmarshal
    (HoursBeforeNow (of_Z 1) new_METARQuery) []
  = (Returns None (Some (fromLibrary Decoder.NoRootElement)),
     [EvGet (endpointMETAR ++ "&hoursBeforeNow=1.000000")]).
Proof.
  apply (proj1 (GetMETAR_transport_error
                  (Decoder.unreachable Decoder.NoRootElement)
                  Decoder.Unmarshal
                  (HoursBeforeNow (of_Z 1) new_METARQuery)
                  (endpointMETAR ++ "&hoursBeforeNow=1.000000")
                  Decoder.NoRootElement [] eq_refl)).
  reflexivity.
Defined.

Lemma GetMETAR_read_error_witness :
  GetMETAR
    (fun _ => inl (Build_Response 200
                     (Build_ReadCloser "<response>" (Some "reset"))))
    (fun _ v => (v, None))
    (HoursBeforeNow (of_Z 1) new_METARQuery) []
  = (Returns None (Some (fromLibrary "reset")),
     [EvGet (endpointMETAR ++ "&hoursBeforeNow=1.000000");
      EvReadAll; EvClose]).
Proof.
  apply (GetMETAR_read_error
           (fun _ => inl (Build_Response 200
                            (Build_ReadCloser "<response>" (Some "reset"))))
           (fun _ v => (v, None))
           (HoursBeforeNow (of_Z 1) new_METARQuery)
           (endpointMETAR ++ "&hoursBeforeNow=1.000000")
           (Build_Response 200 (Build_ReadCloser "<response>" (Some "reset")))
           "reset" []).
  - reflexivity.
  - reflexivity.
  - simpl. lia.
  - reflexivity.
Defined.

Lemma GetMETAR_closes_body_iff_accepted_witness :
  ~ In EvClose
      (snd (GetMETAR (Decoder.server 503 "busy") Decoder.Unmarshal
              (HoursBeforeNow (of_Z 1) new_METARQuery) [])).
Proof.
  destruct (GetMETAR_closes_body_iff_accepted
              (Decoder.server 503 "busy") Decoder.Unmarshal
              (HoursBeforeNow (of_Z 1) new_METARQuery)
              (endpointMETAR ++ "&hoursBeforeNow=1.000000") [] eq_refl)
    as (t & Ht & Hiff & _).
  rewrite Ht. simpl. intros H. apply Hiff in H.
  destruct H as (resp & Hresp & Hcode).
  injection Hresp as <-. simpl in Hcode. lia.
Defined.

Lemma GetMETAR_one_request_witness :
  fst (GetMETAR (Decoder.server 200 Decoder.canned) Decoder.Unmarshal
         (call (CallHoursBeforeNow (of_Z 1)) new_METARQuery) [])
  <> Panics.
Proof.
  apply (proj2 (proj2 (GetMETAR_one_request
                         (Decoder.server 200 Decoder.canned)
                         Decoder.Unmarshal
                         (call (CallHoursBeforeNow (of_Z 1)) new_METARQuery)
                         []))).
  apply reachable_call, reachable_new.
Defined.

Lemma GetMETAR_response_xor_error_witness :
  exists resp,
    Decoder.server 200 Decoder.canned
      (endpointMETAR ++ "&hoursBeforeNow=1.000000") = inl resp
    /\ 200 <= StatusCode resp <= 299
    /\ readError (Body resp) = None
    /\ Decoder.Unmarshal (content (Body resp)) new_METARResponse
       = (fst (Decoder.Unmarshal Decoder.canned new_METARResponse), None).
Proof.
  apply (proj1 (proj2 (GetMETAR_response_xor_error
                         (Decoder.server 200 Decoder.canned)
                         Decoder.Unmarshal
                         (HoursBeforeNow (of_Z 1) new_METARQuery) [])
                  (endpointMETAR ++ "&hoursBeforeNow=1.000000")
                  (fst (Decoder.Unmarshal Decoder.canned new_METARResponse))
                  eq_refl)).
  vm_compute. reflexivity.
Defined.
